(** * nexs-mcp: the NLP model download script and the example MCP client

    A shallow embedding of

    - [scripts/download_nlp_models.py]: the dependency gate
      ([check_dependencies]), the two artifact jobs
      ([download_and_convert_bert_ner],
      [download_and_convert_distilbert_sentiment]) and the driver [main];
    - [examples/integration/python_client.py]: the request builder of
      [NexsMCPClient].

    The script is effectful: it prints, touches the filesystem, calls into
    [transformers]/[optimum] and may raise.  It is embedded in a state and
    exception monad in which, as in Python, the effects performed before a
    [raise] stay performed.  The libraries are the environment: a [World]
    says what each of their calls does to the filesystem and whether it
    raises. *)

From Stdlib Require Import String Ascii List Bool ZArith NArith Lia DecimalString Sorted.
Import ListNotations.
Local Open Scope list_scope.
Local Open Scope string_scope.
Set Warnings "-register-all".

(* ===================================================================== *)
(** * Part I: definitions *)
(* ===================================================================== *)

(** ** Python values used by both programs *)

Module Py.

(** [sep.join(xs)] *)
Definition join (sep : string) (xs : list string) : string :=
  String.concat sep xs.

(** [s * n] on strings *)
Fixpoint str_mul (s : string) (n : nat) : string :=
  match n with
  | O => ""
  | S n' => s ++ str_mul s n'
  end.

(** [s.startswith(p)] *)
Definition startswith (s p : string) : bool := String.prefix p s.

(** [str(n)] for a non-negative [int]. *)
Definition str_of_N (n : N) : string :=
  NilZero.string_of_uint (N.to_uint n).

(** A [dict] with string keys.  Python dictionaries keep insertion order
    ([results.values()] is read in that order), so a dictionary is an
    association list without repeated keys. *)
Definition dict (V : Type) : Type := list (string * V).

(** [d.get(k)] / [k in d] *)
Fixpoint dict_get {V} (k : string) (d : dict V) : option V :=
  match d with
  | [] => None
  | (k', v) :: d' => if String.eqb k k' then Some v else dict_get k d'
  end.

(** [d[k] = v]: an existing key keeps its position, a new key goes last. *)
Fixpoint dict_set {V} (k : string) (v : V) (d : dict V) : dict V :=
  match d with
  | [] => [(k, v)]
  | (k', v') :: d' =>
      if String.eqb k k' then (k', v) :: d' else (k', v') :: dict_set k v d'
  end.

(** [del d[k]]: [None] is Python's [KeyError]. *)
Fixpoint dict_del {V} (k : string) (d : dict V) : option (dict V) :=
  match d with
  | [] => None
  | (k', v') :: d' =>
      if String.eqb k k' then Some d'
      else option_map (cons (k', v')) (dict_del k d')
  end.

Definition keys {V} (d : dict V) : list string := map fst d.
Definition values {V} (d : dict V) : list V := map snd d.

(** [all(xs)] on booleans *)
Definition all (xs : list bool) : bool := forallb (fun b => b) xs.

End Py.

(** ** The filesystem seen through [pathlib] *)

Module Fs.

(** A directory tree.  A file carries its [st_size]. *)
Inductive node : Type :=
| File (st_size : N)
| Dir (entries : list (string * node)).

(** A relative path, as its components: [Path("a/b").parts]. *)
Definition path : Type := list string.

(** Splitting at ["/"]. *)
Fixpoint split_slash (s : string) (cur : string) : list string :=
  match s with
  | EmptyString => [cur]
  | String c s' =>
      if Ascii.eqb c "/"%char then cur :: split_slash s' ""
      else split_slash s' (cur ++ String c "")
  end.

(** [Path(s)] for a relative [s]: empty and ["."] components are dropped,
    as [pathlib] does. *)
Definition Path (s : string) : path :=
  filter (fun c => negb (String.eqb c "") && negb (String.eqb c "."))
         (split_slash s "").

(** [p / name] *)
Definition div (p : path) (name : string) : path := (p ++ [name])%list.

(** [str(p)] *)
Definition str (p : path) : string :=
  match p with
  | [] => "."
  | _ => Py.join "/" p
  end.

Fixpoint lookup (name : string) (es : list (string * node)) : option node :=
  match es with
  | [] => None
  | (n, x) :: es' => if String.eqb name n then Some x else lookup name es'
  end.

Fixpoint update (name : string) (x : node) (es : list (string * node))
  : list (string * node) :=
  match es with
  | [] => [(name, x)]
  | (n, y) :: es' =>
      if String.eqb name n then (n, x) :: es' else (n, y) :: update name x es'
  end.

(** The node a path names under [cwd], if any. *)
Fixpoint resolve (p : path) (cwd : node) : option node :=
  match p with
  | [] => Some cwd
  | c :: rest =>
      match cwd with
      | File _ => None
      | Dir es =>
          match lookup c es with
          | Some n => resolve rest n
          | None => None
          end
      end
  end.

(** [p.exists()] *)
Definition exists_ (p : path) (cwd : node) : bool :=
  match resolve p cwd with Some _ => true | None => false end.

(** [p.is_dir()] *)
Definition is_dir (p : path) (cwd : node) : bool :=
  match resolve p cwd with Some (Dir _) => true | _ => false end.

(** [p.mkdir(parents=True, exist_ok=True)]: missing components are created
    from the top; a component that exists as a directory is kept as it
    is; one that exists as a file makes the call raise ([inr], with the
    text of the [OSError]: [FileExistsError] for the last component,
    [NotADirectoryError] for an earlier one).  [whole] is the path the
    call was made on, for the message. *)
Fixpoint mkdir_from (whole : string) (p : path) (cwd : node)
  : node + string :=
  match cwd with
  | File _ =>
      match p with
      | [] => inr ("[Errno 17] File exists: '" ++ whole ++ "'")
      | _ :: _ => inr ("[Errno 20] Not a directory: '" ++ whole ++ "'")
      end
  | Dir es =>
      match p with
      | [] => inl cwd
      | c :: rest =>
          let sub := match lookup c es with
                     | Some n => n
                     | None => Dir []
                     end in
          match mkdir_from whole rest sub with
          | inl sub' => inl (Dir (update c sub' es))
          | inr msg => inr msg
          end
      end
  end.

Definition mkdir_parents_exist_ok (p : path) (cwd : node) : node + string :=
  mkdir_from (str p) p cwd.

(** Writing a file (what a library's [save_pretrained] does); the parent
    directories are created when missing, a file in the way is replaced. *)
Fixpoint write_file (p : path) (size : N) (cwd : node) : node :=
  match p with
  | [] => File size
  | c :: rest =>
      let es := match cwd with Dir es => es | File _ => [] end in
      let sub := match lookup c es with
                 | Some n => n
                 | None => Dir []
                 end in
      Dir (update c (write_file rest size sub) es)
  end.

End Fs.

(** ** [scripts/download_nlp_models.py] *)

Module Download.

Import Py.

(** *** What can be raised

    [Error msg] is an instance of [Exception] whose [str] is [msg]: what
    a library call, an [import] or [pathlib] raises, and what
    [except Exception] catches.  [SystemExit code] is what [sys.exit]
    raises; it is not an [Exception]. *)
Inductive exn : Type :=
| Error (msg : string)
| SystemExit (code : Z).

Definition isinstance_Exception (e : exn) : bool :=
  match e with
  | Error _ => true
  | SystemExit _ => false
  end.

Inductive Result (A : Type) : Type :=
| Return (a : A)
| Raise (e : exn).
Arguments Return {A} a.
Arguments Raise {A} e.

(** *** The state of a run

    [fs] is the tree under the working directory and [console] the
    arguments of the [print] calls so far, oldest first.  [calls] is
    instrumentation, not a variable of the script: the names of the
    script's functions entered so far, oldest first. *)
Record State : Type := mkState {
  fs : Fs.node;
  console : list string;
  calls : list string
}.

Definition M (A : Type) : Type := State -> Result A * State.

Definition ret {A} (a : A) : M A := fun s => (Return a, s).

Definition bind {A B} (m : M A) (k : A -> M B) : M B :=
  fun s =>
    match m s with
    | (Return a, s') => k a s'
    | (Raise e, s') => (Raise e, s')
    end.

Definition raise {A} (e : exn) : M A := fun s => (Raise e, s).

(** [try: body  except Exception as e: handler(e)] *)
Definition try_except_Exception {A} (body : M A) (handler : string -> M A)
  : M A :=
  fun s =>
    match body s with
    | (Return a, s') => (Return a, s')
    | (Raise (Error msg), s') => handler msg s'
    | (Raise (SystemExit c), s') => (Raise (SystemExit c), s')
    end.

Declare Scope py_scope.
Delimit Scope py_scope with py.
Notation "x <- m ;; k" := (bind m (fun x => k))
  (at level 61, m at next level, right associativity) : py_scope.
Notation "m ;; k" := (bind m (fun _ => k))
  (at level 61, right associativity) : py_scope.
Local Open Scope py_scope.

(** [print(text)] *)
Definition print (text : string) : M unit :=
  fun s => (Return tt, mkState (fs s) (console s ++ [text])%list (calls s)).

(** [sys.exit(code)] *)
Definition sys_exit {A} (code : Z) : M A := raise (SystemExit code).

(** Entering one of the script's functions. *)
Definition enter (name : string) : M unit :=
  fun s => (Return tt, mkState (fs s) (console s) (calls s ++ [name])%list).

(** *** The environment

    [importable p] is whether [__import__(p)] returns ([false]: it raises
    [ImportError]).  A library call takes the filesystem to a new one
    and returns ([None]) or raises an [Exception] with the given text.
    [dir_st_size] is the [st_size] the platform gives a directory. *)
Definition LibCall : Type := Fs.node -> Fs.node * option string.

Record World : Type := mkWorld {
  importable : string -> bool;
  import_from_ : string -> string -> LibCall;
  from_pretrained_ : string -> string -> bool -> LibCall;
  save_pretrained_ : string -> string -> string -> LibCall;
  dir_st_size : N
}.

(** A loaded tokenizer or model: its class and the name it was loaded
    from. *)
Record Pretrained : Type := mkPretrained {
  cls : string;
  loaded_from : string
}.

Definition lib {A} (call : LibCall) (a : A) : M A :=
  fun s =>
    match call (fs s) with
    | (fs', None) => (Return a, mkState fs' (console s) (calls s))
    | (fs', Some msg) => (Raise (Error msg), mkState fs' (console s) (calls s))
    end.

(** *** [f"{st_size / (1024 * 1024):.1f}"]

    [/] on two [int]s is the [float] nearest to the quotient, and
    [.1f] the decimal with one digit nearest to that [float], ties to
    even in both steps.  Dividing by a power of two only moves the
    exponent, so the [float] is [round53 st_size / 2^20]. *)
Definition round_half_even (n d : N) : N :=
  let q := (n / d)%N in
  let r2 := (2 * (n mod d))%N in
  if (r2 <? d)%N then q
  else if (d <? r2)%N then (q + 1)%N
  else if N.even q then q else (q + 1)%N.

Definition round53 (n : N) : N :=
  let k := (N.log2 n - 52)%N in
  (round_half_even n (2 ^ k) * 2 ^ k)%N.

Definition format_size_mb (st_size : N) : string :=
  let tenths := round_half_even (10 * round53 st_size) (1024 * 1024) in
  str_of_N (tenths / 10) ++ "." ++ str_of_N (tenths mod 10).

Section Script.

Variable w : World.

(** [from module import name] *)
Definition import_from (module name : string) : M unit :=
  lib (import_from_ w module name) tt.

(** [cls.from_pretrained(name)] and [cls.from_pretrained(name, export=True)] *)
Definition from_pretrained (cls name : string) (export : bool)
  : M Pretrained :=
  lib (from_pretrained_ w cls name export) (mkPretrained cls name).

(** [obj.save_pretrained(output_dir)] *)
Definition save_pretrained (obj : Pretrained) (output_dir : string)
  : M unit :=
  lib (save_pretrained_ w (cls obj) (loaded_from obj) output_dir) tt.

(** [Path(d).mkdir(parents=True, exist_ok=True)] *)
Definition mkdir (p : Fs.path) : M unit :=
  fun s =>
    match Fs.mkdir_parents_exist_ok p (fs s) with
    | inl fs' => (Return tt, mkState fs' (console s) (calls s))
    | inr msg => (Raise (Error msg), s)
    end.

(** [p.exists()] *)
Definition exists_ (p : Fs.path) : M bool :=
  fun s => (Return (Fs.exists_ p (fs s)), s).

(** [p.stat().st_size] *)
Definition stat_st_size (p : Fs.path) : M N :=
  fun s =>
    match Fs.resolve p (fs s) with
    | Some (Fs.File size) => (Return size, s)
    | Some (Fs.Dir _) => (Return (dir_st_size w), s)
    | None =>
        (Raise (Error ("[Errno 2] No such file or directory: '"
                       ++ Fs.str p ++ "'")), s)
    end.

(** *** Lines 10-25 *)

Definition required : list string := ["torch"; "transformers"; "optimum"].

(** The [for package in required] loop with its [try]/[except
    ImportError]. *)
Fixpoint collect_missing (packages missing : list string) : list string :=
  match packages with
  | [] => missing
  | package :: rest =>
      collect_missing rest
        (if importable w package then missing
         else (missing ++ [package])%list)
  end.

Definition check_dependencies : M unit :=
  enter "check_dependencies" ;;
  let missing := collect_missing required [] in
  match missing with
  | _ :: _ =>
      print ("❌ Pacotes faltando: " ++ join ", " missing) ;;
      print (String "010" "Instale com:") ;;
      print ("  pip install " ++ join " " missing ++ " onnxruntime") ;;
      sys_exit 1
  | [] => ret tt
  end.

(** *** Lines 27-64 *)

Definition download_and_convert_bert_ner : M bool :=
  enter "download_and_convert_bert_ner" ;;
  import_from "transformers" "AutoTokenizer" ;;
  import_from "optimum.onnxruntime" "ORTModelForTokenClassification" ;;
  print "📥 Baixando BERT NER (ONNX)..." ;;
  let model_name := "protectai/bert-base-NER-onnx" in
  let output_dir := "models/bert-base-ner" in
  mkdir (Fs.Path output_dir) ;;
  print "   Baixando tokenizer..." ;;
  tokenizer <- from_pretrained "AutoTokenizer" "dslim/bert-base-NER" false ;;
  save_pretrained tokenizer output_dir ;;
  print "   Baixando modelo ONNX (já convertido)..." ;;
  model <- from_pretrained "ORTModelForTokenClassification" model_name false ;;
  save_pretrained model output_dir ;;
  let onnx_file := Fs.div (Fs.Path output_dir) "model.onnx" in
  let vocab_file := Fs.div (Fs.Path output_dir) "vocab.txt" in
  onnx_exists <- exists_ onnx_file ;;
  if onnx_exists then
    st_size <- stat_st_size onnx_file ;;
    print ("✅ BERT NER salvo em: " ++ output_dir ++ "/") ;;
    print ("   Arquivo ONNX: " ++ format_size_mb st_size ++ " MB") ;;
    vocab_exists <- exists_ vocab_file ;;
    print ("   Vocabulário: " ++ (if vocab_exists then "✅" else "❌")) ;;
    ret true
  else
    print "❌ Erro: arquivo model.onnx não foi criado" ;;
    ret false.

(** *** Lines 66-104 *)

Definition download_and_convert_distilbert_sentiment : M bool :=
  enter "download_and_convert_distilbert_sentiment" ;;
  import_from "transformers" "AutoTokenizer" ;;
  import_from "optimum.onnxruntime" "ORTModelForSequenceClassification" ;;
  print (String "010" "📥 Baixando DistilBERT Sentiment Multilingual...") ;;
  let model_name :=
    "lxyuan/distilbert-base-multilingual-cased-sentiments-student" in
  let output_dir := "models/distilbert-sentiment" in
  mkdir (Fs.Path output_dir) ;;
  print "   Baixando tokenizer..." ;;
  tokenizer <- from_pretrained "AutoTokenizer" model_name false ;;
  save_pretrained tokenizer output_dir ;;
  print "   Convertendo para ONNX (pode demorar alguns minutos)..." ;;
  model <- from_pretrained "ORTModelForSequenceClassification" model_name true ;;
  save_pretrained model output_dir ;;
  let onnx_file := Fs.div (Fs.Path output_dir) "model.onnx" in
  let vocab_file := Fs.div (Fs.Path output_dir) "vocab.txt" in
  onnx_exists <- exists_ onnx_file ;;
  if onnx_exists then
    st_size <- stat_st_size onnx_file ;;
    print ("✅ DistilBERT Sentiment salvo em: " ++ output_dir ++ "/") ;;
    print ("   Arquivo ONNX: " ++ format_size_mb st_size ++ " MB") ;;
    vocab_exists <- exists_ vocab_file ;;
    print ("   Vocabulário: " ++ (if vocab_exists then "✅" else "❌")) ;;
    ret true
  else
    print "❌ Erro: arquivo model.onnx não foi criado" ;;
    ret false.

(** *** The common shape of the two jobs

    The two functions above differ only in their texts.  [artifact_job]
    is that shape with the texts as parameters; [bert_ner_job] and
    [distilbert_job] are the two instances. *)

Record JobText : Type := mkJobText {
  job_name : string;
  model_class : string;
  tokenizer_source : string;
  model_source : string;
  model_export : bool;
  job_output_dir : string;
  line_start : string;
  line_model : string;
  line_saved : string
}.

Definition line_missing : string :=
  "❌ Erro: arquivo model.onnx não foi criado".

Definition line_size (st_size : N) : string :=
  "   Arquivo ONNX: " ++ format_size_mb st_size ++ " MB".

Definition line_vocab (vocab_exists : bool) : string :=
  "   Vocabulário: " ++ (if vocab_exists then "✅" else "❌").

Definition artifact_job (j : JobText) : M bool :=
  enter (job_name j) ;;
  import_from "transformers" "AutoTokenizer" ;;
  import_from "optimum.onnxruntime" (model_class j) ;;
  print (line_start j) ;;
  mkdir (Fs.Path (job_output_dir j)) ;;
  print "   Baixando tokenizer..." ;;
  tokenizer <- from_pretrained "AutoTokenizer" (tokenizer_source j) false ;;
  save_pretrained tokenizer (job_output_dir j) ;;
  print (line_model j) ;;
  model <- from_pretrained (model_class j) (model_source j) (model_export j) ;;
  save_pretrained model (job_output_dir j) ;;
  let onnx_file := Fs.div (Fs.Path (job_output_dir j)) "model.onnx" in
  let vocab_file := Fs.div (Fs.Path (job_output_dir j)) "vocab.txt" in
  onnx_exists <- exists_ onnx_file ;;
  if onnx_exists then
    st_size <- stat_st_size onnx_file ;;
    print (line_saved j) ;;
    print (line_size st_size) ;;
    vocab_exists <- exists_ vocab_file ;;
    print (line_vocab vocab_exists) ;;
    ret true
  else
    print line_missing ;;
    ret false.

Definition bert_ner_job : JobText :=
  mkJobText "download_and_convert_bert_ner"
            "ORTModelForTokenClassification"
            "dslim/bert-base-NER"
            "protectai/bert-base-NER-onnx"
            false
            "models/bert-base-ner"
            "📥 Baixando BERT NER (ONNX)..."
            "   Baixando modelo ONNX (já convertido)..."
            "✅ BERT NER salvo em: models/bert-base-ner/".

Definition distilbert_job : JobText :=
  mkJobText "download_and_convert_distilbert_sentiment"
            "ORTModelForSequenceClassification"
            "lxyuan/distilbert-base-multilingual-cased-sentiments-student"
            "lxyuan/distilbert-base-multilingual-cased-sentiments-student"
            true
            "models/distilbert-sentiment"
            (String "010" "📥 Baixando DistilBERT Sentiment Multilingual...")
            "   Convertendo para ONNX (pode demorar alguns minutos)..."
            "✅ DistilBERT Sentiment salvo em: models/distilbert-sentiment/".

(** *** Lines 106-168

    [main] is cut at the places the properties speak of: the banner and
    the dependency gate, the two [try] blocks that fill [results], and the
    summary. *)

Definition nl : string := String "010" "".

(** [d[k]] in an expression: a missing key raises [KeyError]. *)
Definition getitem (k : string) (d : dict bool) : M bool :=
  match dict_get k d with
  | Some v => ret v
  | None => raise (Error ("'" ++ k ++ "'"))
  end.

(** Lines 108-116. *)
Definition main_gate : M unit :=
  print (str_mul "=" 70) ;;
  print "🚀 Download e Conversão de Modelos NLP para NEXS-MCP" ;;
  print (str_mul "=" 70) ;;
  print "" ;;
  print "🔍 Verificando dependências..." ;;
  check_dependencies ;;
  print ("✅ Todas as dependências instaladas" ++ nl).

(** Lines 122-126. *)
Definition main_try_bert_ner (results : dict bool) : M (dict bool) :=
  try_except_Exception
    (r <- download_and_convert_bert_ner ;;
     ret (dict_set "bert_ner" r results))
    (fun e =>
       print ("❌ Erro ao processar BERT NER: " ++ e) ;;
       ret (dict_set "bert_ner" false results)).

(** Lines 129-133. *)
Definition main_try_distilbert (results : dict bool) : M (dict bool) :=
  try_except_Exception
    (r <- download_and_convert_distilbert_sentiment ;;
     ret (dict_set "distilbert" r results))
    (fun e =>
       print ("❌ Erro ao processar DistilBERT Sentiment: " ++ e) ;;
       ret (dict_set "distilbert" false results)).

(** Lines 108-133: the run up to the summary, with the [results] it
    hands to it. *)
Definition main_results : M (dict bool) :=
  enter "main" ;;
  main_gate ;;
  let results := [] in
  results <- main_try_bert_ner results ;;
  results <- main_try_distilbert results ;;
  ret results.

(** Lines 135-168. *)
Definition main_summary (results : dict bool) : M unit :=
  print (nl ++ str_mul "=" 70) ;;
  print "📊 RESUMO" ;;
  print (str_mul "=" 70) ;;
  bert_ner <- getitem "bert_ner" results ;;
  print ("BERT NER:              "
         ++ (if bert_ner then "✅ Sucesso" else "❌ Falhou")) ;;
  distilbert <- getitem "distilbert" results ;;
  print ("DistilBERT Sentiment:  "
         ++ (if distilbert then "✅ Sucesso" else "❌ Falhou")) ;;
  print "" ;;
  if all (values results) then
    print "✅ Download e conversão concluídos com sucesso!" ;;
    print "" ;;
    print "📋 Próximos passos:" ;;
    print "" ;;
    print "1. Verifique os modelos:" ;;
    print "   ls -lh models/bert-base-ner/" ;;
    print "   ls -lh models/distilbert-sentiment/" ;;
    print "" ;;
    print "2. Configure o .env:" ;;
    print "   NEXS_NLP_ENTITY_EXTRACTION_ENABLED=true" ;;
    print "   NEXS_NLP_SENTIMENT_ENABLED=true" ;;
    print "" ;;
    print "3. Compile com suporte ONNX:" ;;
    print "   make build-onnx" ;;
    print "" ;;
    print "4. Execute o NEXS-MCP:" ;;
    print "   ./bin/nexs-mcp" ;;
    print ""
  else
    print "⚠️  Alguns modelos falharam no download." ;;
    print "   Consulte os logs acima para detalhes." ;;
    print "" ;;
    print "💡 Dica: Tente executar novamente ou consulte:" ;;
    print "   docs/DOWNLOAD_NLP_MODELS.md" ;;
    sys_exit 1.

Definition main : M unit :=
  results <- main_results ;;
  main_summary results.

End Script.

(** *** The process

    A run starts with nothing printed.  The exit status is 0 when [main]
    returns, the argument of [sys.exit] when that was called, and 1 when
    an exception reaches the top level. *)
Definition init (fs0 : Fs.node) : State := mkState fs0 [] [].

Definition exit_status (r : Result unit) : Z :=
  match r with
  | Return _ => 0
  | Raise (SystemExit code) => code
  | Raise (Error _) => 1
  end.

(** The dependency gate lets a run through when every required package
    imports. *)
Definition gate_open (w : World) : bool := forallb (importable w) required.

(** The packages the gate reports. *)
Definition unavailable (w : World) : list string :=
  filter (fun p => negb (importable w p)) required.

(** The [st_size] that [stat] gives a node. *)
Definition st_size_of (w : World) (n : Fs.node) : N :=
  match n with
  | Fs.File size => size
  | Fs.Dir _ => dir_st_size w
  end.

(** The paths a job verifies. *)
Definition onnx_of (j : JobText) : Fs.path :=
  Fs.div (Fs.Path (job_output_dir j)) "model.onnx".
Definition vocab_of (j : JobText) : Fs.path :=
  Fs.div (Fs.Path (job_output_dir j)) "vocab.txt".

(** What a job prints once the libraries have returned, read off the
    filesystem they left. *)
Definition verification_lines (w : World) (j : JobText) (t : Fs.node)
  : list string :=
  match Fs.resolve (onnx_of j) t with
  | Some n =>
      [line_saved j; line_size (st_size_of w n);
       line_vocab (Fs.exists_ (vocab_of j) t)]
  | None => [line_missing]
  end.

(** *** The configured artifacts

    [main] has no list of artifacts: it names the two jobs one after the
    other.  [Artifact] enumerates them in that order, with what [main]
    attaches to each. *)
Inductive Artifact : Type := BertNer | DistilBert.

Definition configured : list Artifact := [BertNer; DistilBert].

(** The key under which [main] stores the outcome. *)
Definition key (a : Artifact) : string :=
  match a with
  | BertNer => "bert_ner"
  | DistilBert => "distilbert"
  end.

Definition text (a : Artifact) : JobText :=
  match a with
  | BertNer => bert_ner_job
  | DistilBert => distilbert_job
  end.

(** The job function of the source. *)
Definition job (w : World) (a : Artifact) : M bool :=
  match a with
  | BertNer => download_and_convert_bert_ner w
  | DistilBert => download_and_convert_distilbert_sentiment w
  end.

(** The [try] block of [main] around it. *)
Definition try_block (w : World) (a : Artifact) : dict bool -> M (dict bool) :=
  match a with
  | BertNer => main_try_bert_ner w
  | DistilBert => main_try_distilbert w
  end.

(** The line the [except] block prints for the error text [e]. *)
Definition line_error (a : Artifact) (e : string) : string :=
  match a with
  | BertNer => "❌ Erro ao processar BERT NER: " ++ e
  | DistilBert => "❌ Erro ao processar DistilBERT Sentiment: " ++ e
  end.

(** The directory and the files of an artifact. *)
Definition output_dir (a : Artifact) : Fs.path :=
  Fs.Path (job_output_dir (text a)).
Definition onnx_file (a : Artifact) : Fs.path := onnx_of (text a).
Definition vocab_file (a : Artifact) : Fs.path := vocab_of (text a).

(** The flag a [try] block stores for the outcome of its job. *)
Definition success_of (r : Result bool) : bool :=
  match r with
  | Return b => b
  | Raise _ => false
  end.

(** The state a [try] block leaves, from the state its job left. *)
Definition after_try (a : Artifact) (r : Result bool) (s : State) : State :=
  match r with
  | Raise (Error msg) =>
      mkState (fs s) (console s ++ [line_error a msg])%list (calls s)
  | _ => s
  end.

(** The lines [main] prints before the gate, and after it when it lets
    the run through. *)
Definition banner : list string :=
  [str_mul "=" 70;
   "🚀 Download e Conversão de Modelos NLP para NEXS-MCP";
   str_mul "=" 70;
   "";
   "🔍 Verificando dependências..."].

Definition line_gate_open : string :=
  "✅ Todas as dependências instaladas" ++ nl.

(** The three lines of the gate's report for the packages [missing]. *)
Definition gate_report (missing : list string) : list string :=
  ["❌ Pacotes faltando: " ++ join ", " missing;
   String "010" "Instale com:";
   "  pip install " ++ join " " missing ++ " onnxruntime"].

(** The state in which [main] reaches its first [try] block. *)
Definition at_first_job (w : World) (fs0 : Fs.node) : State :=
  snd ((enter "main" ;; main_gate w)%py (init fs0)).

(** The state in which [main] reaches its second [try] block. *)
Definition at_second_job (w : World) (fs0 : Fs.node) : State :=
  snd (main_try_bert_ner w [] (at_first_job w fs0)).

(** *** Sample environments *)

Definition no_effect : LibCall := fun t => (t, None).

(** Everything imports; a tokenizer saves [vocab.txt], a model saves
    [model.onnx] of [onnx_size] bytes. *)
Definition world_saving (onnx_size : N) (with_vocab : bool) : World :=
  mkWorld (fun _ => true)
          (fun _ _ => no_effect)
          (fun _ _ _ => no_effect)
          (fun cls _ dir t =>
             if String.eqb cls "AutoTokenizer" then
               (if with_vocab
                then Fs.write_file (Fs.div (Fs.Path dir) "vocab.txt") 231508 t
                else t, None)
             else (Fs.write_file (Fs.div (Fs.Path dir) "model.onnx") onnx_size t,
                   None))
          4096.

(** Everything imports and every call returns, but nothing is written. *)
Definition world_lying : World :=
  mkWorld (fun _ => true) (fun _ _ => no_effect) (fun _ _ _ => no_effect)
          (fun _ _ _ => no_effect) 4096.

(** As [world_saving], but loading the BERT NER model times out. *)
Definition world_timeout : World :=
  mkWorld (fun _ => true)
          (fun _ _ => no_effect)
          (fun cls _ _ t =>
             if String.eqb cls "ORTModelForTokenClassification"
             then (t, Some "network timeout") else (t, None))
          (save_pretrained_ (world_saving 1000 true))
          4096.

(** [torch] and [optimum] do not import. *)
Definition world_missing : World :=
  mkWorld (fun p => String.eqb p "transformers")
          (fun _ _ => no_effect) (fun _ _ _ => no_effect)
          (fun _ _ _ => no_effect) 4096.

(** *** What the summary prints *)

(** Lines 144-161. *)
Definition next_steps : list string :=
  ["✅ Download e conversão concluídos com sucesso!";
   "";
   "📋 Próximos passos:";
   "";
   "1. Verifique os modelos:";
   "   ls -lh models/bert-base-ner/";
   "   ls -lh models/distilbert-sentiment/";
   "";
   "2. Configure o .env:";
   "   NEXS_NLP_ENTITY_EXTRACTION_ENABLED=true";
   "   NEXS_NLP_SENTIMENT_ENABLED=true";
   "";
   "3. Compile com suporte ONNX:";
   "   make build-onnx";
   "";
   "4. Execute o NEXS-MCP:";
   "   ./bin/nexs-mcp";
   ""].

(** Lines 163-167. *)
Definition failure_hint : list string :=
  ["⚠️  Alguns modelos falharam no download.";
   "   Consulte os logs acima para detalhes.";
   "";
   "💡 Dica: Tente executar novamente ou consulte:";
   "   docs/DOWNLOAD_NLP_MODELS.md"].

(** Lines 139-140: the status line of an artifact. *)
Definition status_line (a : Artifact) (success : bool) : string :=
  (match a with
   | BertNer => "BERT NER:              "
   | DistilBert => "DistilBERT Sentiment:  "
   end) ++ (if success then "✅ Sucesso" else "❌ Falhou").

(** Everything [main] prints from line 136 on, for the two stored flags. *)
Definition summary_lines (b1 b2 : bool) : list string :=
  ([(nl ++ str_mul "=" 70)%string; "📊 RESUMO"; str_mul "=" 70;
    status_line BertNer b1; status_line DistilBert b2; ""]
     ++ (if b1 && b2 then next_steps else failure_hint))%list.

(** *** Environments in which the libraries write nothing *)

(** Every import and every library call returns and leaves the
    filesystem as it found it. *)
Definition inert (w : World) : Prop :=
  (forall m n t, import_from_ w m n t = (t, None)) /\
  (forall c n e t, from_pretrained_ w c n e t = (t, None)) /\
  (forall c n d t, save_pretrained_ w c n d t = (t, None)).

(** *** The number the size line shows

    The size in tenths of a MiB, as [format_size_mb] rounds it. *)
Definition size_tenths (st_size : N) : N :=
  round_half_even (10 * round53 st_size) (1024 * 1024).

(** A working directory that already holds a [model.onnx] for BERT NER,
    left by an earlier run. *)
Definition fs_stale : Fs.node :=
  Fs.Dir [("models",
           Fs.Dir [("bert-base-ner", Fs.Dir [("model.onnx", Fs.File 7)])])].

(** As [world_lying], but [onnxruntime] does not import. *)
Definition world_no_onnxruntime : World :=
  mkWorld (fun p => negb (String.eqb p "onnxruntime"))
          (fun _ _ => no_effect) (fun _ _ _ => no_effect)
          (fun _ _ _ => no_effect) 4096.

(** As [world_saving], but exporting the DistilBERT model fails. *)
Definition world_export_fails : World :=
  mkWorld (fun _ => true)
          (fun _ _ => no_effect)
          (fun cls _ _ t =>
             if String.eqb cls "ORTModelForSequenceClassification"
             then (t, Some "export failed") else (t, None))
          (save_pretrained_ (world_saving 1000 true))
          4096.

(** As [world_timeout], with the text of the error as a parameter. *)
Definition world_failing (msg : string) : World :=
  mkWorld (fun _ => true)
          (fun _ _ => no_effect)
          (fun cls _ _ t =>
             if String.eqb cls "ORTModelForTokenClassification"
             then (t, Some msg) else (t, None))
          (save_pretrained_ (world_saving 1000 true))
          4096.

(** *** Getting past [mkdir]

    The line ["   Baixando tokenizer..."] is printed right after [mkdir]
    (lines 38-41 and 77-80): a job has got past its [mkdir] when it has
    printed its first line and that one. *)
Definition past_mkdir (a : Artifact) (s s' : State) : Prop :=
  exists printed,
    console s' =
    (console s ++ [line_start (text a); "   Baixando tokenizer..."]
       ++ printed)%list.

(** The imports of the jobs return and leave the files alone. *)
Definition imports_succeed (w : World) : Prop :=
  forall m n t, import_from_ w m n t = (t, None).

(** The library calls of a job never remove its output directory:
    whether they return or raise, a tree in which it is a directory is
    taken to one in which it still is. *)
Definition keeps_output_dir (w : World) (a : Artifact) : Prop :=
  forall t,
    Fs.is_dir (output_dir a) t = true ->
    (forall c n e,
        Fs.is_dir (output_dir a) (fst (from_pretrained_ w c n e t)) = true) /\
    (forall c n,
        Fs.is_dir (output_dir a)
          (fst (save_pretrained_ w c n (job_output_dir (text a)) t)) = true).

End Download.

(** ** [examples/integration/python_client.py] *)

Module Client.

Import Py.

(** The JSON values a request holds. *)
Inductive json : Type :=
| JNull
| JBool (b : bool)
| JInt (n : Z)
| JStr (s : string)
| JList (xs : list json)
| JDict (d : list (string * json)).

(** The client object: its two attributes. *)
Record NexsMCPClient : Type := mkClient {
  server_path : string;
  request_id : Z
}.

(** [__init__] *)
Definition new (server_path : string) : NexsMCPClient :=
  mkClient server_path 0.

(** [_next_id]: the value returned and the client after the call. *)
Definition _next_id (self : NexsMCPClient) : Z * NexsMCPClient :=
  let self' := mkClient (server_path self) (request_id self + 1) in
  (request_id self', self').

(** [params or {}]: [None] and the empty dictionary are both false. *)
Definition params_or_empty (params : option (dict json)) : dict json :=
  match params with
  | None => []
  | Some [] => []
  | Some d => d
  end.

(** [_send_request]: the request built and the client after the call;
    [None] would be the [KeyError] of [del request["id"]]. *)
Definition _send_request (self : NexsMCPClient) (method : string)
    (params : option (dict json)) : option (dict json * NexsMCPClient) :=
  let '(id, self') := _next_id self in
  let request :=
    [("jsonrpc", JStr "2.0");
     ("id", JInt id);
     ("method", JStr method);
     ("params", JDict (params_or_empty params))] in
  if startswith method "notifications/" then
    match dict_del "id" request with
    | Some request' => Some (request', self')
    | None => None
    end
  else Some (request, self').

(** [call_tool] *)
Definition call_tool (self : NexsMCPClient) (tool_name : string)
    (arguments : dict json) : option (dict json * NexsMCPClient) :=
  _send_request self "tools/call"
    (Some [("name", JStr tool_name); ("arguments", JDict arguments)]).

(** [list_tools] *)
Definition list_tools (self : NexsMCPClient)
  : option (dict json * NexsMCPClient) :=
  _send_request self "tools/list" None.

(** Successive [_send_request] calls on one client, in order: the requests
    built and the client after the last call. *)
Fixpoint send_all (self : NexsMCPClient)
    (calls : list (string * option (dict json)))
  : option (list (dict json) * NexsMCPClient) :=
  match calls with
  | [] => Some ([], self)
  | (method, params) :: rest =>
      match _send_request self method params with
      | None => None
      | Some (request, self') =>
          match send_all self' rest with
          | None => None
          | Some (requests, self'') => Some (request :: requests, self'')
          end
      end
  end.

(** The value under ["id"] when it is an integer. *)
Definition id_of (request : dict json) : option Z :=
  match dict_get "id" request with
  | Some (JInt n) => Some n
  | _ => None
  end.

(** The ids of the requests that have one, in build order. *)
Fixpoint ids_of (requests : list (dict json)) : list Z :=
  match requests with
  | [] => []
  | r :: rest =>
      match id_of r with
      | Some n => n :: ids_of rest
      | None => ids_of rest
      end
  end.

Definition is_notification (method : string) : bool :=
  startswith method "notifications/".

(** *** [initialize] and the requests of [main] *)

(** [initialize]: the two messages it returns and the client after the
    call.  The second message is written out by hand, not built by
    [_send_request]. *)
Definition initialize (self : NexsMCPClient)
  : option (list (dict json) * NexsMCPClient) :=
  match _send_request self "initialize"
          (Some [("protocolVersion", JStr "2024-11-05");
                 ("capabilities", JDict []);
                 ("clientInfo",
                  JDict [("name", JStr "python-example");
                         ("version", JStr "1.0.0")])]) with
  | Some (init_request, self') =>
      let initialized_notification :=
        [("jsonrpc", JStr "2.0");
         ("method", JStr "notifications/initialized")] in
      Some ([init_request; initialized_notification], self')
  | None => None
  end.

(** The arguments of the [create_element] call of [main]. *)
Definition persona : dict json :=
  [("type", JStr "persona");
   ("name", JStr "AI Research Scientist");
   ("description", JStr "Expert in machine learning and neural networks");
   ("version", JStr "1.0.0");
   ("author", JStr "Python Example");
   ("tags", JList [JStr "ai"; JStr "research"; JStr "ml"]);
   ("is_active", JBool true)].

(** Lines 83-106 of [main] without the [print]s: [all_requests] and the
    client after the four calls. *)
Definition all_requests (client : NexsMCPClient)
  : option (list (dict json) * NexsMCPClient) :=
  match initialize client with
  | None => None
  | Some (init_requests, client) =>
      match call_tool client "create_element" persona with
      | None => None
      | Some (create_request, client) =>
          match call_tool client "list_elements" [] with
          | None => None
          | Some (list_request, client) =>
              match list_tools client with
              | None => None
              | Some (tools_request, client) =>
                  Some ((init_requests
                           ++ [create_request; list_request; tools_request])%list,
                        client)
              end
          end
      end
  end.

(** *** [main]

    What [main] needs from outside: [json.dumps], [json.loads],
    [str.strip] and [subprocess.run]. *)

(** What [subprocess.run] does: it returns the finished process (its
    exit code is not looked at by the caller), or raises. *)
Inductive RunOutcome : Type :=
| Completed (returncode : Z) (stdout stderr : string)
| RunTimeoutExpired
| RunFileNotFoundError
| RunRaises (msg : string).

(** What [json.loads] does on a line: a value, a [JSONDecodeError], or
    another exception ([RecursionError] on a deeply nested line). *)
Inductive LoadsOutcome : Type :=
| Parsed (response : json)
| JSONDecodeError
| LoadsRaises (msg : string).

Record Env : Type := mkEnv {
  dumps : dict json -> string;
  dumps_indent2 : json -> string;
  loads : string -> LoadsOutcome;
  strip : string -> string;
  run : string -> string -> RunOutcome
}.

(** What can be raised in [main].  [Exception_ msg] is an [Exception]
    that is neither of the two named ones. *)
Inductive exn : Type :=
| TimeoutExpired
| FileNotFoundError
| Exception_ (msg : string)
| SystemExit (code : Z).

(** A computation that prints and may raise; the lines printed before a
    [raise] stay printed. *)
Definition M (A : Type) : Type := list string -> (A + exn) * list string.

Definition ret {A} (a : A) : M A := fun out => (inl a, out).

Definition bind {A B} (m : M A) (k : A -> M B) : M B :=
  fun out =>
    match m out with
    | (inl a, out') => k a out'
    | (inr e, out') => (inr e, out')
    end.

Definition raise {A} (e : exn) : M A := fun out => (inr e, out).

Definition print (text : string) : M unit :=
  fun out => (inl tt, (out ++ [text])%list).

Definition sys_exit {A} (code : Z) : M A := raise (SystemExit code).

(** A call that cannot raise in [main] ([None] is the [KeyError] that
    [_send_request] never raises). *)
Definition call {A} (r : option A) : M A :=
  match r with
  | Some a => ret a
  | None => raise (Exception_ "'id'")
  end.

Declare Scope client_scope.
Delimit Scope client_scope with client.
Notation "x <- m ;; k" := (bind m (fun x => k))
  (at level 61, m at next level, right associativity) : client_scope.
Notation "m ;; k" := (bind m (fun _ => k))
  (at level 61, right associativity) : client_scope.
Local Open Scope client_scope.

(** [try: body] with the three [except] clauses of [main], in their
    order. *)
Definition try_except (body on_timeout on_not_found : M unit)
    (on_exception : string -> M unit) : M unit :=
  fun out =>
    match body out with
    | (inl a, out') => (inl a, out')
    | (inr TimeoutExpired, out') => on_timeout out'
    | (inr FileNotFoundError, out') => on_not_found out'
    | (inr (Exception_ msg), out') => on_exception msg out'
    | (inr (SystemExit c), out') => (inr (SystemExit c), out')
    end.

(** [s.split('\n')] *)
Fixpoint split_lines (s : string) (cur : string) : list string :=
  match s with
  | EmptyString => [cur]
  | String c s' =>
      if Ascii.eqb c "010"%char then cur :: split_lines s' ""
      else split_lines s' (cur ++ String c "")
  end.

Definition nl : string := String "010" "".

Section Main.

Variable env : Env.

(** [subprocess.run([client.server_path], input=input_data, ...)] *)
Definition subprocess_run (server_path input_data : string)
  : M (string * string) :=
  match run env server_path input_data with
  | Completed _ stdout stderr => ret (stdout, stderr)
  | RunTimeoutExpired => raise TimeoutExpired
  | RunFileNotFoundError => raise FileNotFoundError
  | RunRaises msg => raise (Exception_ msg)
  end.

(** Lines 126-132: the body of the [for] loop. *)
Definition show_line (line : string) : M unit :=
  if String.eqb line "" then ret tt
  else
    match loads env line with
    | Parsed response =>
        print (dumps_indent2 env response) ;;
        print ""
    | JSONDecodeError => print ("Invalid JSON: " ++ line)
    | LoadsRaises msg => raise (Exception_ msg)
    end.

(** Lines 125-132: the [for] loop. *)
Fixpoint show_lines (lines : list string) : M unit :=
  match lines with
  | [] => ret tt
  | line :: rest => show_line line ;; show_lines rest
  end.

(** Lines 108-149: sending [all_requests] and showing the answers. *)
Definition main_send (client : NexsMCPClient)
    (all_requests : list (dict json)) : M unit :=
  print (nl ++ "5. Sending requests to server...") ;;
  let input_data := join nl (map (dumps env) all_requests) in
  try_except
    (result <- subprocess_run (server_path client) input_data ;;
     let '(stdout, stderr) := result in
     print (nl ++ "=== Server Responses ===" ++ nl) ;;
     show_lines (split_lines (strip env stdout) "") ;;
     (if String.eqb stderr "" then ret tt
      else print "=== Server Errors ===" ;; print stderr) ;;
     print (nl ++ "=== Example completed successfully! ==="))
    (print "ERROR: Server timeout" ;; sys_exit 1)
    (print ("ERROR: Server not found at " ++ server_path client) ;;
     print "Build the server first: make build" ;;
     sys_exit 1)
    (fun e => print ("ERROR: " ++ e) ;; sys_exit 1).

(** Lines 75-149. *)
Definition main : M unit :=
  let client := new "./bin/nexs-mcp" in
  print ("=== NEXS MCP Python Client Example ===" ++ nl) ;;
  print "1. Initializing connection..." ;;
  r <- call (initialize client) ;;
  let '(init_requests, client) := r in
  print "2. Creating a new Persona element..." ;;
  r <- call (call_tool client "create_element" persona) ;;
  let '(create_request, client) := r in
  print "3. Listing all elements..." ;;
  r <- call (call_tool client "list_elements" []) ;;
  let '(list_request, client) := r in
  print "4. Listing available tools..." ;;
  r <- call (list_tools client) ;;
  let '(tools_request, client) := r in
  let all_requests :=
    (init_requests ++ [create_request; list_request; tools_request])%list in
  main_send client all_requests.

End Main.

(** The exit status of the process. *)
Definition exit_status (r : unit + exn) : Z :=
  match r with
  | inl _ => 0
  | inr (SystemExit code) => code
  | inr _ => 1
  end.

(** What the loop prints for one line. *)
Definition block (env : Env) (line : string) : list string :=
  if String.eqb line "" then []
  else
    match loads env line with
    | Parsed response => [dumps_indent2 env response; ""]
    | JSONDecodeError => ["Invalid JSON: " ++ line]
    | LoadsRaises _ => []
    end.

(** Whether [json.loads] raises something else than [JSONDecodeError] on
    a line the loop looks at. *)
Definition breaks (env : Env) (line : string) : bool :=
  if String.eqb line "" then false
  else match loads env line with LoadsRaises _ => true | _ => false end.

(** The six lines printed before the server is started. *)
Definition preamble : list string :=
  ["=== NEXS MCP Python Client Example ===" ++ nl;
   "1. Initializing connection...";
   "2. Creating a new Persona element...";
   "3. Listing all elements...";
   "4. Listing available tools...";
   nl ++ "5. Sending requests to server..."].

(** The requests [main] builds. *)
Definition requests_of_main : list (dict json) :=
  match all_requests (new "./bin/nexs-mcp") with
  | Some (requests, _) => requests
  | None => []
  end.

(** The input [main] gives the server: one line per request. *)
Definition input_of (env : Env) : string :=
  join nl (map (dumps env) requests_of_main).

(** The lines of the server's output the loop goes through. *)
Definition lines_of (env : Env) (stdout : string) : list string :=
  split_lines (strip env stdout) "".

(** What [main] prints once the server has finished, when no line breaks
    the loop. *)
Definition answers (env : Env) (stdout stderr : string) : list string :=
  ([(nl ++ "=== Server Responses ===" ++ nl)%string]
     ++ concat (map (block env) (lines_of env stdout))
     ++ (if String.eqb stderr "" then []
         else ["=== Server Errors ==="; stderr])
     ++ [(nl ++ "=== Example completed successfully! ===")%string])%list.

(** A sample environment: the server answers one JSON line, one line
    that is not JSON and a blank line, writes to its standard error and
    ends with exit code 3. *)
Definition env_sample : Env :=
  mkEnv (fun _ => "{}")
        (fun _ => "{}")
        (fun line => if String.eqb line "{}" then Parsed (JDict [])
                     else JSONDecodeError)
        (fun s => s)
        (fun _ _ => Completed 3 ("{}" ++ nl ++ nl ++ "oops") "warning").

(** A sample environment in which there is no server binary. *)
Definition env_no_server : Env :=
  mkEnv (fun _ => "{}") (fun _ => "{}") (fun _ => JSONDecodeError)
        (fun s => s) (fun _ _ => RunFileNotFoundError).

(** What [main] prints when [subprocess.run] raises. *)
Definition failure_lines (server_path : string) (o : RunOutcome)
  : list string :=
  match o with
  | Completed _ _ _ => []
  | RunTimeoutExpired => ["ERROR: Server timeout"]
  | RunFileNotFoundError =>
      ["ERROR: Server not found at " ++ server_path;
       "Build the server first: make build"]
  | RunRaises msg => ["ERROR: " ++ msg]
  end.

(** Whether [subprocess.run] returned. *)
Definition completed (o : RunOutcome) : bool :=
  match o with
  | Completed _ _ _ => true
  | _ => false
  end.

(** The standard output of a finished server. *)
Definition stdout_of (o : RunOutcome) : string :=
  match o with
  | Completed _ stdout _ => stdout
  | _ => ""
  end.

(** What [subprocess.run] does in the run of [main]. *)
Definition server (env : Env) : RunOutcome :=
  run env "./bin/nexs-mcp" (input_of env).

(** No line of the server's output breaks the loop. *)
Definition loop_finishes (env : Env) : bool :=
  forallb (fun line => negb (breaks env line))
          (lines_of env (stdout_of (server env))).

(** Lines printed by [main]. *)
Definition line_title : string := "=== NEXS MCP Python Client Example ===" ++ nl.
Definition line_sending : string := nl ++ "5. Sending requests to server...".
Definition line_responses : string := nl ++ "=== Server Responses ===" ++ nl.
Definition line_success : string :=
  nl ++ "=== Example completed successfully! ===".

(** The lines printed while the requests are built. *)
Definition building : list string :=
  [line_title;
   "1. Initializing connection...";
   "2. Creating a new Persona element...";
   "3. Listing all elements...";
   "4. Listing available tools..."].

End Client.

(* ===================================================================== *)
(** * Part II: properties *)
(* ===================================================================== *)

(** ** Directory creation *)

Module FsFacts.

Import Fs.

Lemma lookup_update_same (c : string) (x : node) (es : list (string * node)) :
  lookup c (update c x es) = Some x.
Proof.
  induction es as [|[n y] es IH]; simpl.
  - now rewrite String.eqb_refl.
  - destruct (String.eqb c n) eqn:E; simpl; rewrite E; auto.
Qed.

Lemma update_lookup_id (c : string) (x : node) (es : list (string * node)) :
  lookup c es = Some x -> update c x es = es.
Proof.
  induction es as [|[n y] es IH]; simpl; intros H.
  - discriminate.
  - destruct (String.eqb c n) eqn:E.
    + now inversion H.
    + now rewrite IH.
Qed.

(** A successful [mkdir] leaves a directory at the path. *)
Lemma mkdir_from_creates (whole : string) (p : path) :
  forall cwd cwd', mkdir_from whole p cwd = inl cwd' -> is_dir p cwd' = true.
Proof.
  unfold is_dir.
  induction p as [|c rest IH]; intros cwd cwd' H.
  - destruct cwd; simpl in H; inversion H; reflexivity.
  - destruct cwd as [sz|es]; simpl in H; [discriminate|].
    destruct (mkdir_from whole rest
                (match lookup c es with Some n => n | None => Dir [] end))
      as [sub'|msg] eqn:E; [|discriminate].
    inversion H; subst; simpl.
    rewrite lookup_update_same.
    exact (IH _ _ E).
Qed.

(** On a path that already names a directory, [mkdir] returns and changes
    nothing. *)
Lemma mkdir_from_existing (whole : string) (p : path) :
  forall cwd, is_dir p cwd = true -> mkdir_from whole p cwd = inl cwd.
Proof.
  unfold is_dir.
  induction p as [|c rest IH]; intros cwd H.
  - destruct cwd; simpl in *; [discriminate | reflexivity].
  - destruct cwd as [sz|es]; simpl in *; [discriminate|].
    destruct (lookup c es) as [n|] eqn:L; [|discriminate].
    rewrite (IH n H).
    now rewrite (update_lookup_id _ _ _ L).
Qed.

(** A failing [mkdir] is caused by a file in the way, never by a
    directory: some prefix of the path names a file. *)
Lemma mkdir_from_fails (whole : string) (p : path) :
  forall cwd msg, mkdir_from whole p cwd = inr msg ->
    exists q size, q = firstn (length q) p /\ resolve q cwd = Some (File size).
Proof.
  induction p as [|c rest IH]; intros cwd msg H.
  - destruct cwd as [sz|es]; simpl in H; [|discriminate].
    exists [], sz; split; reflexivity.
  - destruct cwd as [sz|es]; simpl in H.
    + exists [], sz; split; reflexivity.
    + destruct (lookup c es) as [n|] eqn:L.
      * destruct (mkdir_from whole rest n) as [sub'|m] eqn:E; [discriminate|].
        destruct (IH _ _ E) as (q & size & Hq & Hr).
        exists (c :: q), size; simpl; rewrite L; split; [now f_equal | exact Hr].
      * destruct (mkdir_from whole rest (Dir [])) as [sub'|m] eqn:E;
          [discriminate|].
        destruct (IH _ _ E) as (q & size & Hq & Hr).
        destruct q as [|c' q]; simpl in Hr; [discriminate|].
        simpl in Hr. discriminate.
Qed.

(** Whatever the tree, a [mkdir] that returned returns again on the tree
    it left, and leaves it as it is. *)
Lemma mkdir_twice (p : path) (cwd : node) :
  match mkdir_parents_exist_ok p cwd with
  | inl t => mkdir_parents_exist_ok p t = inl t
  | inr _ => True
  end.
Proof.
  unfold mkdir_parents_exist_ok.
  destruct (mkdir_from (str p) p cwd) as [t|msg] eqn:E; [|exact I].
  apply mkdir_from_existing. exact (mkdir_from_creates _ _ _ _ E).
Qed.

Lemma lookup_update_other (c c' : string) (x : node)
    (es : list (string * node)) :
  String.eqb c' c = false -> lookup c' (update c x es) = lookup c' es.
Proof.
  intros N.
  induction es as [|[n y] es IH]; simpl.
  - now rewrite N.
  - destruct (String.eqb c n) eqn:E; simpl.
    + apply String.eqb_eq in E; subst n. now rewrite N.
    + destruct (String.eqb c' n); [reflexivity | exact IH].
Qed.

Lemma resolve_app (p q : path) :
  forall cwd,
    resolve (p ++ q)%list cwd =
    match resolve p cwd with
    | Some n => resolve q n
    | None => None
    end.
Proof.
  induction p as [|c rest IH]; intros cwd; simpl; [reflexivity|].
  destruct cwd as [sz|es]; [reflexivity|].
  destruct (lookup c es) as [n|]; [apply IH | reflexivity].
Qed.

(** A path that has something below it names a directory. *)
Lemma exists_below_is_dir (p : path) (name : string) (cwd : node) :
  exists_ (div p name) cwd = true -> is_dir p cwd = true.
Proof.
  unfold exists_, is_dir, div. rewrite resolve_app.
  destruct (resolve p cwd) as [[sz|es]|]; simpl; try discriminate.
  reflexivity.
Qed.

(** [mkdir] never removes, replaces or resizes a file: every file of the
    tree is still there, with its size, after a [mkdir] that returned. *)
Theorem mkdir_keeps_files (p : path) :
  forall (cwd cwd' : node) (q : path) (size : N),
    mkdir_parents_exist_ok p cwd = inl cwd' ->
    resolve q cwd = Some (File size) ->
    resolve q cwd' = Some (File size).
Proof.
  unfold mkdir_parents_exist_ok. generalize (str p) as whole. intros whole.
  induction p as [|c rest IH]; intros cwd cwd' q size H R.
  - destruct cwd; simpl in H; inversion H; subst; exact R.
  - destruct cwd as [sz|es]; simpl in H; [discriminate|].
    destruct (mkdir_from whole rest
                (match lookup c es with Some n => n | None => Dir [] end))
      as [sub'|msg] eqn:E; [|discriminate].
    inversion H; subst; clear H.
    destruct q as [|c' q']; simpl in R; [discriminate|].
    destruct (lookup c' es) as [n'|] eqn:L; [|discriminate].
    simpl.
    destruct (String.eqb c' c) eqn:C.
    + apply String.eqb_eq in C; subst c'.
      rewrite lookup_update_same. rewrite L in E.
      exact (IH _ _ _ _ E R).
    + rewrite (lookup_update_other _ _ _ _ C), L. exact R.
Qed.

(** Creating a directory next to a file. *)
Lemma mkdir_keeps_files_witness :
  mkdir_parents_exist_ok ["models"; "b"]
    (Dir [("models", Dir [("a", Dir [("model.onnx", File 7)])])])
  = inl (Dir [("models", Dir [("a", Dir [("model.onnx", File 7)]);
                              ("b", Dir [])])]) /\
  resolve ["models"; "a"; "model.onnx"]
    (Dir [("models", Dir [("a", Dir [("model.onnx", File 7)]);
                          ("b", Dir [])])])
  = Some (File 7).
Proof.
  assert (mkdir_parents_exist_ok ["models"; "b"]
            (Dir [("models", Dir [("a", Dir [("model.onnx", File 7)])])])
          = inl (Dir [("models", Dir [("a", Dir [("model.onnx", File 7)]);
                                      ("b", Dir [])])])) as H
    by (vm_compute; reflexivity).
  split; [exact H|].
  apply (mkdir_keeps_files ["models"; "b"] _ _
           ["models"; "a"; "model.onnx"] 7%N H).
  vm_compute; reflexivity.
Defined.

(** Writing a file into a directory leaves it a directory. *)
Lemma write_file_below_keeps_dir (p : path) (name : string) (size : N) :
  forall t, is_dir p t = true ->
            is_dir p (write_file (div p name) size t) = true.
Proof.
  unfold is_dir, div.
  induction p as [|c rest IH]; intros t D.
  - destruct t as [sz|es]; simpl in *; [discriminate | reflexivity].
  - destruct t as [sz|es]; simpl in D; [discriminate|].
    destruct (lookup c es) as [n|] eqn:L; [|discriminate].
    cbn [app write_file resolve]. rewrite L, lookup_update_same.
    exact (IH n D).
Qed.

End FsFacts.

(** ** The download script *)

Module DownloadFacts.

Import Py Download.
Local Open Scope py_scope.

(** *** The source functions are instances of the common shape *)

Lemma bert_ner_shape (w : World) :
  download_and_convert_bert_ner w = artifact_job w bert_ner_job.
Proof. reflexivity. Qed.

Lemma distilbert_shape (w : World) :
  download_and_convert_distilbert_sentiment w = artifact_job w distilbert_job.
Proof. reflexivity. Qed.

(** *** Reading a run backwards *)

Lemma bind_inv {A B} (m : M A) (k : A -> M B) s r s' :
  bind m k s = (r, s') ->
  (exists a s1, m s = (Return a, s1) /\ k a s1 = (r, s')) \/
  (exists e, m s = (Raise e, s') /\ r = Raise e).
Proof.
  unfold bind. destruct (m s) as [[a|e] s1]; intros H.
  - left. now exists a, s1.
  - right. inversion H; subst. now exists e.
Qed.

Lemma enter_inv name s r s' :
  enter name s = (r, s') ->
  r = Return tt /\ s' = mkState (fs s) (console s) (calls s ++ [name])%list.
Proof. unfold enter. intros H; inversion H; auto. Qed.

Lemma print_inv text s r s' :
  print text s = (r, s') ->
  r = Return tt /\ s' = mkState (fs s) (console s ++ [text])%list (calls s).
Proof. unfold print. intros H; inversion H; auto. Qed.

Lemma lib_inv {A} (call : LibCall) (a : A) s r s' :
  lib call a s = (r, s') ->
  exists t o, call (fs s) = (t, o) /\
    s' = mkState t (console s) (calls s) /\
    r = match o with None => Return a | Some msg => Raise (Error msg) end.
Proof.
  unfold lib. destruct (call (fs s)) as [t [msg|]]; intros H;
    inversion H; subst; eauto.
Qed.

Lemma mkdir_inv p s r s' :
  mkdir p s = (r, s') ->
  (exists t, Fs.mkdir_parents_exist_ok p (fs s) = inl t /\
     r = Return tt /\ s' = mkState t (console s) (calls s)) \/
  (exists msg, Fs.mkdir_parents_exist_ok p (fs s) = inr msg /\
     r = Raise (Error msg) /\ s' = s).
Proof.
  unfold mkdir. destruct (Fs.mkdir_parents_exist_ok p (fs s)) as [t|msg];
    intros H; inversion H; subst; eauto.
Qed.

Lemma exists_inv p s r s' :
  exists_ p s = (r, s') -> r = Return (Fs.exists_ p (fs s)) /\ s' = s.
Proof. unfold exists_. intros H; inversion H; auto. Qed.

Lemma stat_inv w p s r s' :
  stat_st_size w p s = (r, s') ->
  s' = s /\
  match Fs.resolve p (fs s) with
  | Some n => r = Return (st_size_of w n)
  | None => exists msg, r = Raise (Error msg)
  end.
Proof.
  unfold stat_st_size.
  destruct (Fs.resolve p (fs s)) as [[size|es]|]; intros H;
    inversion H; subst; simpl; eauto.
Qed.

Lemma ret_inv {A} (a : A) s r s' :
  ret a s = (r, s') -> r = Return a /\ s' = s.
Proof. unfold ret. intros H; inversion H; auto. Qed.

(** One step back through a [bind], with what its first action did. *)
Ltac back H :=
  let a := fresh "a" in
  let s1 := fresh "s" in
  let H1 := fresh "H" in
  let e := fresh "e" in
  apply bind_inv in H;
  destruct H as [(a & s1 & H1 & H) | (e & H1 & ->)];
  [ first
      [ apply enter_inv in H1; destruct H1 as [_ ->]
      | apply print_inv in H1; destruct H1 as [_ ->]
      | apply exists_inv in H1; destruct H1 as [H1 ->];
        injection H1 as ->
      | apply mkdir_inv in H1;
        destruct H1 as [(? & ? & _ & ->) | (? & _ & H1 & _)];
        [ | discriminate H1 ]
      | apply lib_inv in H1; destruct H1 as (? & [?|] & ? & -> & H1);
        [ discriminate H1 | injection H1 as -> ]
      | idtac ]
  | first
      [ apply enter_inv in H1; destruct H1 as [H1 _]; discriminate H1
      | apply print_inv in H1; destruct H1 as [H1 _]; discriminate H1
      | apply exists_inv in H1; destruct H1 as [H1 _]; discriminate H1
      | apply mkdir_inv in H1;
        destruct H1 as [(? & _ & H1 & _) | (? & ? & H1 & ->)];
        [ discriminate H1 | injection H1 as -> ]
      | apply lib_inv in H1; destruct H1 as (? & [?|] & ? & -> & H1);
        [ injection H1 as -> | discriminate H1 ]
      | idtac ] ];
  simpl in *.

Ltac printed :=
  first [ exists []; now rewrite app_nil_r
        | rewrite <- ?app_assoc; eexists; reflexivity ].

Lemma artifact_job_outcome (w : World) (j : JobText) (s : State) :
  forall r s', artifact_job w j s = (r, s') ->
    calls s' = (calls s ++ [job_name j])%list /\
    (exists printed, console s' = (console s ++ printed)%list) /\
    match r with
    | Return b =>
        b = Fs.exists_ (onnx_of j) (fs s') /\
        console s' =
          (console s
             ++ [line_start j; "   Baixando tokenizer..."; line_model j]
             ++ verification_lines w j (fs s'))%list
    | Raise (Error _) => True
    | Raise (SystemExit _) => False
    end.
Proof.
  intros r s' H.
  unfold artifact_job, import_from, from_pretrained, save_pretrained in H.
  do 11 (back H; try solve [split; [reflexivity | split; [printed | exact I]]]).
  back H.
  unfold verification_lines, onnx_of, vocab_of, Fs.exists_ in *.
  destruct (Fs.resolve (Fs.div (Fs.Path (job_output_dir j)) "model.onnx") x5)
    as [n|] eqn:R.
  - apply bind_inv in H.
    destruct H as [(size & s1 & H8 & H) | (e & H8 & ->)];
      apply stat_inv in H8; simpl in H8; rewrite R in H8;
      destruct H8 as [-> H8]; [ injection H8 as -> | discriminate H8 ].
    do 4 back H.
    apply ret_inv in H. destruct H as [-> ->]. simpl.
    rewrite R.
    split; [reflexivity | split; [printed | split; [reflexivity|]]].
    now rewrite <- !app_assoc.
  - back H.
    apply ret_inv in H. destruct H as [-> ->]. simpl.
    rewrite R.
    split; [reflexivity | split; [printed | split; [reflexivity|]]].
    now rewrite <- !app_assoc.
Qed.

(** A job never exits the process: what it raises is an [Exception]. *)
Lemma artifact_job_no_exit (w : World) (j : JobText) (s : State) c s' :
  artifact_job w j s <> (Raise (SystemExit c), s').
Proof.
  intros H. now destruct (artifact_job_outcome w j s _ _ H) as (_ & _ & F).
Qed.

(** In an environment whose library calls raise [Exception]s only (a
    [World]), a job does not raise [SystemExit] itself. *)
Lemma job_never_exits (w : World) (a : Artifact) (s : State) (c : Z) :
  fst (job w a s) <> Raise (SystemExit c).
Proof.
  destruct (job w a s) as [r s'] eqn:J. simpl. intros ->.
  destruct a; simpl in J;
    [rewrite bert_ner_shape in J | rewrite distilbert_shape in J];
    exact (artifact_job_no_exit _ _ _ _ _ J).
Qed.

(** [except Exception] catches what is an [Exception] and nothing else. *)
Lemma try_except_catches_exceptions_only {A} (body : M A)
    (handler : string -> M A) (s : State) :
  match body s with
  | (Raise e, s') =>
      if isinstance_Exception e
      then exists msg, e = Error msg /\
                       try_except_Exception body handler s = handler msg s'
      else try_except_Exception body handler s = (Raise e, s')
  | (Return a, s') => try_except_Exception body handler s = (Return a, s')
  end.
Proof.
  unfold try_except_Exception.
  destruct (body s) as [[a|[msg|c]] s']; simpl; eauto.
Qed.

(** The size line: one decimal, ties to even. *)
Example format_size_mb_examples :
  map format_size_mb [0; 52428; 52429; 262144; 786432; 1048576; 438000000]%N
  = ["0.0"; "0.0"; "0.1"; "0.2"; "0.8"; "1.0"; "417.7"].
Proof. vm_compute. reflexivity. Qed.

(** *** The dependency gate *)

Lemma collect_missing_filter (w : World) (packages missing : list string) :
  collect_missing w packages missing =
  (missing ++ filter (fun p => negb (importable w p)) packages)%list.
Proof.
  revert missing.
  induction packages as [|p rest IH]; intros missing; simpl.
  - now rewrite app_nil_r.
  - rewrite IH. destruct (importable w p); simpl; [reflexivity|].
    now rewrite <- app_assoc.
Qed.

Lemma collect_missing_unavailable (w : World) :
  collect_missing w required [] = unavailable w.
Proof. now rewrite collect_missing_filter. Qed.

Lemma gate_open_unavailable (w : World) :
  gate_open w = true <-> unavailable w = [].
Proof.
  unfold gate_open, unavailable.
  induction required as [|p rest IH]; simpl; [tauto|].
  destruct (importable w p); simpl; [exact IH|].
  split; discriminate.
Qed.

Lemma check_dependencies_open (w : World) (s : State) :
  gate_open w = true ->
  check_dependencies w s =
  (Return tt,
   mkState (fs s) (console s) (calls s ++ ["check_dependencies"])%list).
Proof.
  intros G. apply gate_open_unavailable in G.
  unfold check_dependencies. rewrite collect_missing_unavailable, G.
  reflexivity.
Qed.

Lemma check_dependencies_closed (w : World) (s : State) :
  unavailable w <> [] ->
  check_dependencies w s =
  (Raise (SystemExit 1),
   mkState (fs s) (console s ++ gate_report (unavailable w))%list
           (calls s ++ ["check_dependencies"])%list).
Proof.
  intros G.
  unfold check_dependencies. rewrite collect_missing_unavailable.
  destruct (unavailable w) as [|p ps] eqn:U; [contradiction|].
  unfold gate_report, bind, enter, print, sys_exit, raise; simpl.
  now rewrite <- !app_assoc.
Qed.

Lemma main_gate_open (w : World) (fs0 : Fs.node) :
  gate_open w = true ->
  (enter "main" ;; main_gate w) (init fs0) =
  (Return tt,
   mkState fs0 (banner ++ [line_gate_open]) ["main"; "check_dependencies"]).
Proof.
  intros G.
  unfold main_gate, bind at 1 2 3 4 5 6. simpl.
  unfold bind. rewrite (check_dependencies_open w _ G). reflexivity.
Qed.

Lemma main_gate_closed (w : World) (fs0 : Fs.node) :
  unavailable w <> [] ->
  (enter "main" ;; main_gate w) (init fs0) =
  (Raise (SystemExit 1),
   mkState fs0 (banner ++ gate_report (unavailable w))
           ["main"; "check_dependencies"]).
Proof.
  intros G.
  unfold main_gate, bind at 1 2 3 4 5 6. simpl.
  unfold bind. rewrite (check_dependencies_closed w _ G). reflexivity.
Qed.

(** *** The two [try] blocks *)

Lemma try_except_store (job : M bool) (key : string) (line : string -> string)
    (results : dict bool) (s : State) :
  try_except_Exception
    (r <- job ;; ret (dict_set key r results))
    (fun e => print (line e) ;; ret (dict_set key false results)) s =
  match job s with
  | (Return b, s') => (Return (dict_set key b results), s')
  | (Raise (Error msg), s') =>
      (Return (dict_set key false results),
       mkState (fs s') (console s' ++ [line msg])%list (calls s'))
  | (Raise (SystemExit c), s') => (Raise (SystemExit c), s')
  end.
Proof.
  unfold try_except_Exception, bind, ret, print.
  destruct (job s) as [[b|[msg|c]] s']; reflexivity.
Qed.

Lemma main_try_bert_ner_eq (w : World) (results : dict bool) (s : State) :
  main_try_bert_ner w results s =
  match download_and_convert_bert_ner w s with
  | (Return b, s') => (Return (dict_set "bert_ner" b results), s')
  | (Raise (Error msg), s') =>
      (Return (dict_set "bert_ner" false results),
       mkState (fs s') (console s' ++ [line_error BertNer msg])%list
               (calls s'))
  | (Raise (SystemExit c), s') => (Raise (SystemExit c), s')
  end.
Proof. apply (try_except_store _ "bert_ner" (line_error BertNer)). Qed.

Lemma main_try_distilbert_eq (w : World) (results : dict bool) (s : State) :
  main_try_distilbert w results s =
  match download_and_convert_distilbert_sentiment w s with
  | (Return b, s') => (Return (dict_set "distilbert" b results), s')
  | (Raise (Error msg), s') =>
      (Return (dict_set "distilbert" false results),
       mkState (fs s') (console s' ++ [line_error DistilBert msg])%list
               (calls s'))
  | (Raise (SystemExit c), s') => (Raise (SystemExit c), s')
  end.
Proof. apply (try_except_store _ "distilbert" (line_error DistilBert)). Qed.

(** The job of an artifact is the common shape at its texts. *)
Lemma job_shape (w : World) (a : Artifact) :
  job w a = artifact_job w (text a).
Proof. destruct a; reflexivity. Qed.

(** What a job does, whichever way it ends. *)
Lemma job_outcome (w : World) (a : Artifact) (s : State) r s' :
  job w a s = (r, s') ->
  calls s' = (calls s ++ [job_name (text a)])%list /\
  (exists printed, console s' = (console s ++ printed)%list) /\
  match r with
  | Return b =>
      b = Fs.exists_ (onnx_file a) (fs s') /\
      console s' =
        (console s
           ++ [line_start (text a); "   Baixando tokenizer...";
               line_model (text a)]
           ++ verification_lines w (text a) (fs s'))%list
  | Raise (Error _) => True
  | Raise (SystemExit _) => False
  end.
Proof. rewrite job_shape. apply artifact_job_outcome. Qed.

(** A [try] block always returns: it stores the job's flag, or [False]
    for a job that raised, and prints the error text in that case. *)
Lemma try_block_outcome (w : World) (a : Artifact) (results : dict bool)
    (s : State) r s' :
  job w a s = (r, s') ->
  try_block w a results s =
  (Return (dict_set (key a) (success_of r) results), after_try a r s').
Proof.
  intros H.
  pose proof (job_outcome w a s r s' H) as (_ & _ & O).
  destruct a; simpl in *.
  - rewrite main_try_bert_ner_eq, H.
    destruct r as [b|[msg|c]]; [reflexivity | reflexivity | contradiction].
  - rewrite main_try_distilbert_eq, H.
    destruct r as [b|[msg|c]]; [reflexivity | reflexivity | contradiction].
Qed.

Lemma after_try_calls (a : Artifact) r s : calls (after_try a r s) = calls s.
Proof. now destruct r as [b|[msg|c]]. Qed.

Lemma after_try_fs (a : Artifact) r s : fs (after_try a r s) = fs s.
Proof. now destruct r as [b|[msg|c]]. Qed.

Lemma after_try_console (a : Artifact) r s :
  exists printed, console (after_try a r s) = (console s ++ printed)%list.
Proof.
  destruct r as [b|[msg|c]]; simpl;
    first [ exists []; now rewrite app_nil_r | eexists; reflexivity ].
Qed.

(** *** A run that passes the gate *)

Lemma bind_assoc {A B C} (m : M A) (k : A -> M B) (h : B -> M C) s :
  bind (bind m k) h s = bind m (fun a => bind (k a) h) s.
Proof.
  unfold bind. destruct (m s) as [[a|e] s1]; reflexivity.
Qed.

Lemma at_first_job_open (w : World) (fs0 : Fs.node) :
  gate_open w = true ->
  at_first_job w fs0 =
  mkState fs0 (banner ++ [line_gate_open]) ["main"; "check_dependencies"].
Proof.
  intros G. unfold at_first_job. now rewrite (main_gate_open w fs0 G).
Qed.

Lemma main_results_open (w : World) (fs0 : Fs.node) r1 s1 r2 s2 :
  gate_open w = true ->
  job w BertNer (at_first_job w fs0) = (r1, s1) ->
  job w DistilBert (at_second_job w fs0) = (r2, s2) ->
  at_second_job w fs0 = after_try BertNer r1 s1 /\
  main_results w (init fs0) =
  (Return [("bert_ner", success_of r1); ("distilbert", success_of r2)],
   after_try DistilBert r2 s2).
Proof.
  intros G J1 J2.
  pose proof (try_block_outcome w BertNer [] _ _ _ J1) as T1.
  assert (at_second_job w fs0 = after_try BertNer r1 s1) as E2.
  { unfold at_second_job. simpl in T1. now rewrite T1. }
  split; [exact E2|].
  pose proof (try_block_outcome w DistilBert
                [("bert_ner", success_of r1)] _ _ _ J2) as T2.
  simpl in T1, T2.
  unfold main_results.
  rewrite <- bind_assoc.
  unfold bind at 1.
  pose proof (main_gate_open w fs0 G) as MG.
  rewrite MG.
  rewrite <- (at_first_job_open w fs0 G).
  unfold bind at 1. rewrite T1.
  rewrite <- E2.
  unfold bind at 1. rewrite T2. reflexivity.
Qed.

Lemma main_summary_exit (b1 b2 : bool) (s : State) :
  fst (main_summary [("bert_ner", b1); ("distilbert", b2)] s) =
  if b1 && b2 then Return tt else Raise (SystemExit 1).
Proof. destruct b1, b2; reflexivity. Qed.

Lemma main_exit (w : World) (fs0 : Fs.node) b1 b2 sr :
  main_results w (init fs0) =
    (Return [("bert_ner", b1); ("distilbert", b2)], sr) ->
  fst (main w (init fs0)) =
  if b1 && b2 then Return tt else Raise (SystemExit 1).
Proof.
  intros H. unfold main, bind. rewrite H. apply main_summary_exit.
Qed.

(** *** Failure isolation *)

(** C1, as the code has it.  In a run that passes the dependency gate,
    when the BERT NER job raises an error with text [msg]: the first [try]
    block catches it and returns; what is recorded for the artifact is the
    flag [False] alone, under ["bert_ner"], so that [results] is
    [bert_ner: False, distilbert: b2] whatever [msg] is; the error text is
    not recorded but printed on the console by the [except] block; the
    DistilBERT job is entered exactly once; and the run ends with the
    summary's [sys.exit(1)], not with the job's error. *)
Theorem C1_first_job_error_is_isolated
    (w : World) (fs0 : Fs.node) (msg : string) :
  gate_open w = true ->
  fst (download_and_convert_bert_ner w (at_first_job w fs0))
    = Raise (Error msg) ->
  exists results sr,
    main_results w (init fs0) = (Return results, sr) /\
    fst (main_try_bert_ner w [] (at_first_job w fs0))
      = Return [("bert_ner", false)] /\
    (exists b2, results = [("bert_ner", false); ("distilbert", b2)]) /\
    dict_get "bert_ner" results = Some false /\
    In (line_error BertNer msg) (console sr) /\
    count_occ string_dec (calls sr)
      "download_and_convert_distilbert_sentiment" = 1%nat /\
    fst (main w (init fs0)) = Raise (SystemExit 1).
Proof.
  intros G H1.
  destruct (job w BertNer (at_first_job w fs0)) as [r1 s1] eqn:J1.
  destruct (job w DistilBert (at_second_job w fs0)) as [r2 s2] eqn:J2.
  simpl in H1. change (download_and_convert_bert_ner w) with (job w BertNer) in H1.
  rewrite J1 in H1. simpl in H1. subst r1.
  destruct (main_results_open w fs0 _ _ _ _ G J1 J2) as [E2 MR].
  simpl in MR.
  exists [("bert_ner", false); ("distilbert", success_of r2)],
         (after_try DistilBert r2 s2).
  split; [exact MR|].
  split.
  { pose proof (try_block_outcome w BertNer [] _ _ _ J1) as T1.
    simpl in T1. now rewrite T1. }
  split; [eexists; reflexivity|].
  split; [reflexivity|].
  pose proof (job_outcome w BertNer _ _ _ J1) as (C1 & _ & _).
  pose proof (job_outcome w DistilBert _ _ _ J2) as (C2 & (p2 & P2) & _).
  rewrite E2 in C2, P2. simpl in C2, P2.
  rewrite (at_first_job_open w fs0 G) in C1. simpl in C1.
  split.
  { destruct (after_try_console DistilBert r2 s2) as (p3 & P3).
    rewrite P3, P2. rewrite !in_app_iff. left; left; right. now left. }
  split.
  { rewrite after_try_calls, C2, C1. reflexivity. }
  rewrite (main_exit w fs0 _ _ _ MR). reflexivity.
Qed.

(** A run in which loading the BERT NER model times out. *)
Lemma C1_first_job_error_is_isolated_witness :
  gate_open world_timeout = true /\
  fst (download_and_convert_bert_ner world_timeout
         (at_first_job world_timeout (Fs.Dir [])))
    = Raise (Error "network timeout") /\
  exists results sr,
    main_results world_timeout (init (Fs.Dir [])) = (Return results, sr) /\
    fst (main_try_bert_ner world_timeout []
           (at_first_job world_timeout (Fs.Dir [])))
      = Return [("bert_ner", false)] /\
    (exists b2, results = [("bert_ner", false); ("distilbert", b2)]) /\
    dict_get "bert_ner" results = Some false /\
    In (line_error BertNer "network timeout") (console sr) /\
    count_occ string_dec (calls sr)
      "download_and_convert_distilbert_sentiment" = 1%nat /\
    fst (main world_timeout (init (Fs.Dir []))) = Raise (SystemExit 1).
Proof.
  split; [vm_compute; reflexivity | split; [vm_compute; reflexivity|]].
  apply (C1_first_job_error_is_isolated world_timeout (Fs.Dir [])
           "network timeout"); vm_compute; reflexivity.
Defined.

(** C1 as stated fails: the error detail is not recorded with the
    outcome.  [results] maps a key to a flag and nothing else, so no
    reading of it gives the text of the error: two runs whose first job
    raises errors with different texts hand the same [results] to the
    summary. *)
Lemma C1_report_carries_no_detail :
  ~ (exists detail : dict bool -> string -> option string,
       forall w fs0 msg results sr,
         gate_open w = true ->
         fst (download_and_convert_bert_ner w (at_first_job w fs0))
           = Raise (Error msg) ->
         main_results w (init fs0) = (Return results, sr) ->
         detail results "bert_ner" = Some msg)
  /\ fst (main_results (world_failing "a") (init (Fs.Dir [])))
     = fst (main_results (world_failing "b") (init (Fs.Dir [])))
  /\ fst (main_results (world_failing "a") (init (Fs.Dir [])))
     = Return [("bert_ner", false); ("distilbert", true)].
Proof.
  split; [|split; vm_compute; reflexivity].
  intros (detail & H).
  set (results := [("bert_ner", false); ("distilbert", true)]).
  assert (forall msg, msg = "a" \/ msg = "b" ->
            gate_open (world_failing msg) = true /\
            fst (download_and_convert_bert_ner (world_failing msg)
                   (at_first_job (world_failing msg) (Fs.Dir [])))
              = Raise (Error msg) /\
            main_results (world_failing msg) (init (Fs.Dir []))
              = (Return results,
                 snd (main_results (world_failing msg) (init (Fs.Dir [])))))
    as R.
  { intros msg [->| ->]; (split; [|split]); vm_compute; reflexivity. }
  destruct (R "a" (or_introl eq_refl)) as (Ga & Ea & Ma).
  destruct (R "b" (or_intror eq_refl)) as (Gb & Eb & Mb).
  pose proof (H _ _ _ _ _ Ga Ea Ma) as Da.
  pose proof (H _ _ _ _ _ Gb Eb Mb) as Db.
  rewrite Da in Db. discriminate Db.
Qed.

(** *** The fail-fast gate *)

(** C2.  When some required package does not import, the run ends with
    [sys.exit(1)] inside [check_dependencies]: the exit status is 1, no job
    was entered, the filesystem is the one the run started with (no
    directory was created), and the console holds, after the banner, one
    report whose first line lists every package that does not import, in
    the order of [required], joined by commas. *)
Theorem C2_gate_fails_fast (w : World) (fs0 : Fs.node) :
  (exists p, In p required /\ importable w p = false) ->
  fst (main w (init fs0)) = Raise (SystemExit 1) /\
  exit_status (fst (main w (init fs0))) = 1%Z /\
  exit_status (fst (main w (init fs0))) <> 0%Z /\
  calls (snd (main w (init fs0))) = ["main"; "check_dependencies"] /\
  fs (snd (main w (init fs0))) = fs0 /\
  console (snd (main w (init fs0))) =
    (banner
       ++ [("❌ Pacotes faltando: " ++ join ", " (unavailable w))%string;
           String "010" "Instale com:";
           ("  pip install " ++ join " " (unavailable w) ++ " onnxruntime")%string])%list /\
  (forall p, In p (unavailable w) <->
             In p required /\ importable w p = false).
Proof.
  intros (p & Hp & Hi).
  assert (forall q, In q (unavailable w) <->
                    In q required /\ importable w q = false) as U.
  { intros q. unfold unavailable. rewrite filter_In.
    now rewrite negb_true_iff. }
  assert (unavailable w <> []) as NE.
  { intros E. assert (In p (unavailable w)) as I by now apply U.
    now rewrite E in I. }
  assert (main w (init fs0) =
          (Raise (SystemExit 1),
           mkState fs0 (banner ++ gate_report (unavailable w))
                   ["main"; "check_dependencies"])) as R.
  { assert (main_results w (init fs0) =
            (Raise (SystemExit 1),
             mkState fs0 (banner ++ gate_report (unavailable w))
                     ["main"; "check_dependencies"])) as MR.
    { unfold main_results. rewrite <- bind_assoc.
      unfold bind at 1. now rewrite (main_gate_closed w fs0 NE). }
    unfold main, bind. now rewrite MR. }
  rewrite R; simpl.
  repeat split; try reflexivity; try discriminate; apply U; assumption.
Qed.

(** A run in which [torch] and [optimum] do not import. *)
Lemma C2_gate_fails_fast_witness :
  (exists p, In p required /\ importable world_missing p = false) /\
  exit_status (fst (main world_missing (init (Fs.Dir [])))) = 1%Z /\
  calls (snd (main world_missing (init (Fs.Dir []))))
    = ["main"; "check_dependencies"] /\
  nth 5 (console (snd (main world_missing (init (Fs.Dir []))))) ""
    = "❌ Pacotes faltando: torch, optimum".
Proof.
  assert (exists p, In p required /\ importable world_missing p = false) as H.
  { exists "torch". split; [now left | reflexivity]. }
  split; [exact H|].
  pose proof (C2_gate_fails_fast world_missing (Fs.Dir []) H)
    as (_ & E & _ & C & _ & P & _).
  split; [exact E | split; [exact C|]].
  rewrite P. vm_compute. reflexivity.
Defined.

(** *** Completeness of the report *)

(** C3.  In a run that passes the dependency gate, whatever the jobs do,
    [main] reaches the summary with exactly one entry per configured
    artifact, under distinct keys, in configuration order (["bert_ner"]
    then ["distilbert"]), and each job was entered exactly once, in that
    order. *)
Theorem C3_one_outcome_per_artifact (w : World) (fs0 : Fs.node) :
  gate_open w = true ->
  exists results sr,
    main_results w (init fs0) = (Return results, sr) /\
    keys results = map key configured /\
    keys results = ["bert_ner"; "distilbert"] /\
    NoDup (keys results) /\
    length results = length configured /\
    calls sr =
      ["main"; "check_dependencies";
       "download_and_convert_bert_ner";
       "download_and_convert_distilbert_sentiment"].
Proof.
  intros G.
  destruct (job w BertNer (at_first_job w fs0)) as [r1 s1] eqn:J1.
  destruct (job w DistilBert (at_second_job w fs0)) as [r2 s2] eqn:J2.
  destruct (main_results_open w fs0 _ _ _ _ G J1 J2) as [E2 MR].
  do 2 eexists. split; [exact MR|].
  split; [reflexivity|]. split; [reflexivity|].
  split.
  { simpl. repeat constructor; simpl; intuition discriminate. }
  split; [reflexivity|].
  pose proof (job_outcome w BertNer _ _ _ J1) as (C1 & _ & _).
  pose proof (job_outcome w DistilBert _ _ _ J2) as (C2 & _ & _).
  rewrite after_try_calls, C2, E2, after_try_calls, C1.
  now rewrite (at_first_job_open w fs0 G).
Qed.

(** A run in which the first job raises and the second succeeds. *)
Lemma C3_one_outcome_per_artifact_witness :
  gate_open world_timeout = true /\
  exists results sr,
    main_results world_timeout (init (Fs.Dir [])) = (Return results, sr) /\
    keys results = map key configured /\
    keys results = ["bert_ner"; "distilbert"] /\
    NoDup (keys results) /\
    length results = length configured /\
    calls sr =
      ["main"; "check_dependencies";
       "download_and_convert_bert_ner";
       "download_and_convert_distilbert_sentiment"].
Proof.
  split; [vm_compute; reflexivity|].
  apply (C3_one_outcome_per_artifact world_timeout (Fs.Dir [])).
  vm_compute; reflexivity.
Defined.

(** *** The aggregate *)

(** C5.  In a run that passes the dependency gate, the flag the summary
    tests, [all(results.values())], is the conjunction of the two stored
    flags; it is true exactly when every stored flag is true; and the exit
    status is 0 when it is true and 1 otherwise. *)
Theorem C5_exit_status_is_the_conjunction (w : World) (fs0 : Fs.node) :
  gate_open w = true ->
  exists b1 b2 sr,
    main_results w (init fs0) =
      (Return [("bert_ner", b1); ("distilbert", b2)], sr) /\
    all (values [("bert_ner", b1); ("distilbert", b2)]) = b1 && b2 /\
    (b1 && b2 = true <->
     forall k b, In (k, b) [("bert_ner", b1); ("distilbert", b2)] -> b = true) /\
    exit_status (fst (main w (init fs0))) = (if b1 && b2 then 0 else 1)%Z /\
    (exit_status (fst (main w (init fs0))) = 0%Z <-> b1 && b2 = true).
Proof.
  intros G.
  destruct (job w BertNer (at_first_job w fs0)) as [r1 s1] eqn:J1.
  destruct (job w DistilBert (at_second_job w fs0)) as [r2 s2] eqn:J2.
  destruct (main_results_open w fs0 _ _ _ _ G J1 J2) as [E2 MR].
  exists (success_of r1), (success_of r2), (after_try DistilBert r2 s2).
  split; [exact MR|].
  split. { simpl. now rewrite andb_true_r. }
  split.
  { split.
    - intros H k b [E|[E|[]]]; inversion E; subst;
        apply andb_true_iff in H; tauto.
    - intros H. apply andb_true_iff. split.
      + apply (H "bert_ner"). now left.
      + apply (H "distilbert"). right. now left. }
  rewrite (main_exit w fs0 _ _ _ MR).
  destruct (success_of r1 && success_of r2); simpl;
    split; try reflexivity; split; congruence.
Qed.

(** A run in which both jobs succeed, and one in which the first fails. *)
Lemma C5_exit_status_is_the_conjunction_witness :
  gate_open (world_saving 1000 true) = true /\
  (exists b1 b2 sr,
    main_results (world_saving 1000 true) (init (Fs.Dir [])) =
      (Return [("bert_ner", b1); ("distilbert", b2)], sr) /\
    all (values [("bert_ner", b1); ("distilbert", b2)]) = b1 && b2 /\
    (b1 && b2 = true <->
     forall k b, In (k, b) [("bert_ner", b1); ("distilbert", b2)] -> b = true) /\
    exit_status (fst (main (world_saving 1000 true) (init (Fs.Dir []))))
      = (if b1 && b2 then 0 else 1)%Z /\
    (exit_status (fst (main (world_saving 1000 true) (init (Fs.Dir []))))
       = 0%Z <-> b1 && b2 = true)) /\
  exit_status (fst (main (world_saving 1000 true) (init (Fs.Dir [])))) = 0%Z /\
  exit_status (fst (main world_timeout (init (Fs.Dir [])))) = 1%Z.
Proof.
  split; [vm_compute; reflexivity|].
  split.
  - apply (C5_exit_status_is_the_conjunction
             (world_saving 1000 true) (Fs.Dir [])).
    vm_compute; reflexivity.
  - split; vm_compute; reflexivity.
Defined.

(** *** Verification of one job *)

Lemma last_app_singleton {A} (l l' : list A) (x d : A) :
  last (l ++ l' ++ [x]) d = x.
Proof. rewrite app_assoc. apply last_last. Qed.

Lemma line_missing_is_not_an_error_line (a : Artifact) (e : string) :
  line_missing <> line_error a e.
Proof. destruct a; intros H; cbn in H; discriminate H. Qed.




(** What a job that returns with [model.onnx] present has done. *)
Lemma job_returns_with_file
    (w : World) (a : Artifact) (s s' : State) (b : bool)
    (results : dict bool) (n : Fs.node) :
  job w a s = (Return b, s') ->
  Fs.resolve (onnx_file a) (fs s') = Some n ->
  b = true /\
  try_block w a results s
    = (Return (dict_set (key a) true results), s') /\
  console s' =
    (console s
       ++ [line_start (text a); "   Baixando tokenizer...";
           line_model (text a); line_saved (text a);
           line_size (st_size_of w n);
           line_vocab (Fs.exists_ (vocab_file a) (fs s'))])%list.
Proof.
  intros J X.
  pose proof (job_outcome w a s _ _ J) as (_ & _ & B & P).
  unfold Fs.exists_ in B. unfold onnx_file in X. unfold onnx_file in B.
  rewrite X in B. subst b.
  split; [reflexivity|].
  split. { now rewrite (try_block_outcome w a results s _ _ J). }
  rewrite P. unfold verification_lines. rewrite X. reflexivity.
Qed.








(** *** Directory creation by the jobs *)

Lemma mkdir_returns_on_directory (p : Fs.path) (s : State) :
  Fs.is_dir p (fs s) = true -> mkdir p s = (Return tt, s).
Proof.
  intros D. unfold mkdir, Fs.mkdir_parents_exist_ok.
  rewrite (FsFacts.mkdir_from_existing _ p _ D). now destruct s.
Qed.

Lemma mkdir_creates (p : Fs.path) (s s' : State) :
  mkdir p s = (Return tt, s') -> Fs.is_dir p (fs s') = true.
Proof.
  unfold mkdir, Fs.mkdir_parents_exist_ok.
  destruct (Fs.mkdir_from (Fs.str p) p (fs s)) as [t|msg] eqn:E;
    intros H; inversion H; subst; simpl.
  exact (FsFacts.mkdir_from_creates _ _ _ _ E).
Qed.

Lemma mkdir_raises_on_file (p : Fs.path) (s s' : State) (e : exn) :
  mkdir p s = (Raise e, s') ->
  exists q size,
    q = firstn (length q) p /\ Fs.resolve q (fs s) = Some (Fs.File size).
Proof.
  unfold mkdir, Fs.mkdir_parents_exist_ok.
  destruct (Fs.mkdir_from (Fs.str p) p (fs s)) as [t|msg] eqn:E;
    intros H; inversion H; subst.
  exact (FsFacts.mkdir_from_fails _ _ _ _ E).
Qed.

(** Past its imports, a job whose [mkdir] can succeed gets past [mkdir],
    whatever the library calls then do, and leaves the output directory a
    directory when the library calls do not remove it. *)
Lemma artifact_job_past_mkdir (w : World) (a : Artifact) (s : State)
    (t : Fs.node) (r : Result bool) (s' : State) :
  imports_succeed w ->
  keeps_output_dir w a ->
  Fs.mkdir_parents_exist_ok (output_dir a) (fs s) = inl t ->
  artifact_job w (text a) s = (r, s') ->
  past_mkdir a s s' /\ Fs.is_dir (output_dir a) (fs s') = true.
Proof.
  intros I K MK H.
  pose proof (FsFacts.mkdir_from_creates _ _ _ _ MK) as D.
  unfold past_mkdir.
  unfold artifact_job, import_from, from_pretrained, save_pretrained in H.
  unfold output_dir in MK.
  do 11
    (back H;
     repeat match goal with
       | E : import_from_ _ _ _ _ = _ |- _ =>
           rewrite I in E; first [discriminate E | injection E as <-]
       | E : Fs.mkdir_parents_exist_ok _ _ = _ |- _ =>
           rewrite MK in E; first [discriminate E | injection E as <-]
       | E : from_pretrained_ w ?c ?n ?e ?tp = (?x, _),
         Dp : Fs.is_dir _ ?tp = true |- _ =>
           let Dx := fresh "D" in
           pose proof (proj1 (K tp Dp) c n e) as Dx;
           rewrite E in Dx; cbn [fst] in Dx; clear E
       | E : save_pretrained_ w ?c ?n _ ?tp = (?x, _),
         Dp : Fs.is_dir _ ?tp = true |- _ =>
           let Dx := fresh "D" in
           pose proof (proj2 (K tp Dp) c n) as Dx;
           rewrite E in Dx; cbn [fst] in Dx; clear E
       end;
     try solve [ split;
                 [ cbn [fs console calls]; rewrite <- ?app_assoc;
                   cbn [app]; eexists; reflexivity
                 | cbn [fs console calls]; assumption ] ]).
  back H.
  match type of H with
  | context [if ?c then _ else _] => destruct c
  end.
  - apply bind_inv in H.
    destruct H as [(size & s1 & H8 & H) | (e & H8 & ->)];
      apply stat_inv in H8; cbn [fs console calls] in H8;
      destruct H8 as [-> _].
    + do 4 back H. apply ret_inv in H. destruct H as [-> ->].
      split; [ cbn [fs console calls]; rewrite <- ?app_assoc;
               cbn [app]; eexists; reflexivity
             | cbn [fs console calls]; assumption ].
    + split; [ cbn [fs console calls]; rewrite <- ?app_assoc;
               cbn [app]; eexists; reflexivity
             | cbn [fs console calls]; assumption ].
  - back H. apply ret_inv in H. destruct H as [-> ->].
    split; [ cbn [fs console calls]; rewrite <- ?app_assoc;
             cbn [app]; eexists; reflexivity
           | cbn [fs console calls]; assumption ].
Qed.



(** *** The whole run *)

Lemma bind_print {B} (text : string) (k : unit -> M B) (s : State) :
  bind (print text) k s =
  k tt (mkState (fs s) (console s ++ [text])%list (calls s)).
Proof. reflexivity. Qed.

Lemma bind_ret {A B} (a : A) (k : A -> M B) (s : State) :
  bind (ret a) k s = k a s.
Proof. reflexivity. Qed.

Lemma main_summary_run (b1 b2 : bool) (s : State) :
  main_summary [("bert_ner", b1); ("distilbert", b2)] s =
  (if b1 && b2 then Return tt else Raise (SystemExit 1),
   mkState (fs s) (console s ++ summary_lines b1 b2)%list (calls s)).
Proof.
  unfold main_summary.
  do 3 (rewrite bind_print; cbv beta; cbn [fs console calls]).
  change (getitem "bert_ner" [("bert_ner", b1); ("distilbert", b2)])
    with (@ret bool b1).
  rewrite bind_ret.
  rewrite bind_print; cbv beta; cbn [fs console calls].
  change (getitem "distilbert" [("bert_ner", b1); ("distilbert", b2)])
    with (@ret bool b2).
  rewrite bind_ret.
  do 2 (rewrite bind_print; cbv beta; cbn [fs console calls]).
  change (all (values [("bert_ner", b1); ("distilbert", b2)]))
    with (b1 && (b2 && true)).
  rewrite andb_true_r.
  unfold summary_lines, status_line.
  destruct (b1 && b2).
  - do 17 (rewrite bind_print; cbv beta; cbn [fs console calls]).
    unfold print; cbn [fs console calls].
    rewrite <- !app_assoc. reflexivity.
  - do 5 (rewrite bind_print; cbv beta; cbn [fs console calls]).
    unfold sys_exit, raise.
    rewrite <- !app_assoc. reflexivity.
Qed.

Lemma gate_closed_unavailable (w : World) :
  gate_open w = false -> unavailable w <> [].
Proof.
  intros G U. apply gate_open_unavailable in U. congruence.
Qed.

Lemma main_closed (w : World) (fs0 : Fs.node) :
  gate_open w = false ->
  main w (init fs0) =
  (Raise (SystemExit 1),
   mkState fs0 (banner ++ gate_report (unavailable w))
           ["main"; "check_dependencies"]).
Proof.
  intros G. pose proof (gate_closed_unavailable w G) as NE.
  assert (main_results w (init fs0) =
          (Raise (SystemExit 1),
           mkState fs0 (banner ++ gate_report (unavailable w))
                   ["main"; "check_dependencies"])) as MR.
  { unfold main_results. rewrite <- bind_assoc.
    unfold bind at 1. now rewrite (main_gate_closed w fs0 NE). }
  unfold main, bind. now rewrite MR.
Qed.

Lemma main_open (w : World) (fs0 : Fs.node) r1 s1 r2 s2 :
  gate_open w = true ->
  job w BertNer (at_first_job w fs0) = (r1, s1) ->
  job w DistilBert (at_second_job w fs0) = (r2, s2) ->
  main w (init fs0) =
  (if success_of r1 && success_of r2 then Return tt
   else Raise (SystemExit 1),
   mkState (fs s2)
           (console (after_try DistilBert r2 s2)
              ++ summary_lines (success_of r1) (success_of r2))%list
           (calls s2)).
Proof.
  intros G J1 J2.
  destruct (main_results_open w fs0 _ _ _ _ G J1 J2) as [_ MR].
  unfold main, bind. rewrite MR, main_summary_run.
  now rewrite after_try_fs, after_try_calls.
Qed.

(** In every environment of the model (a [World]: a required package
    imports or raises [ImportError], an import or a library call inside a
    job returns or raises an [Exception], [print] does not raise), [main]
    ends by returning or by [sys.exit(1)]: no exception of a job or of
    [mkdir] and no [KeyError] of the [results[...]] lookups of the summary
    reaches the top level, and the exit status is 0 or 1. *)
Theorem main_ends_with_status_0_or_1 (w : World) (fs0 : Fs.node) :
  (fst (main w (init fs0)) = Return tt \/
   fst (main w (init fs0)) = Raise (SystemExit 1)) /\
  (exit_status (fst (main w (init fs0))) = 0%Z \/
   exit_status (fst (main w (init fs0))) = 1%Z) /\
  (forall msg, fst (main w (init fs0)) <> Raise (Error msg)).
Proof.
  assert (fst (main w (init fs0)) = Return tt \/
          fst (main w (init fs0)) = Raise (SystemExit 1)) as E.
  { destruct (gate_open w) eqn:G.
    - destruct (job w BertNer (at_first_job w fs0)) as [r1 s1] eqn:J1.
      destruct (job w DistilBert (at_second_job w fs0)) as [r2 s2] eqn:J2.
      rewrite (main_open w fs0 _ _ _ _ G J1 J2). simpl.
      destruct (success_of r1 && success_of r2); auto.
    - rewrite (main_closed w fs0 G). auto. }
  split; [exact E|].
  destruct E as [E|E]; rewrite E; simpl; split; auto; discriminate.
Qed.

(** In a run that passes the gate, what [main] prints after the second
    [try] block is the summary of the two stored flags: one status line per
    artifact, in configuration order, then the next steps when both flags
    are true and the failure hint otherwise, never both. *)
Theorem summary_follows_results (w : World) (fs0 : Fs.node) :
  gate_open w = true ->
  exists b1 b2 sr,
    main_results w (init fs0) =
      (Return [("bert_ner", b1); ("distilbert", b2)], sr) /\
    console (snd (main w (init fs0))) =
      (console sr ++ summary_lines b1 b2)%list /\
    nth 3 (summary_lines b1 b2) "" = status_line BertNer b1 /\
    nth 4 (summary_lines b1 b2) "" = status_line DistilBert b2 /\
    (In "📋 Próximos passos:" (summary_lines b1 b2) <-> b1 && b2 = true) /\
    (In "💡 Dica: Tente executar novamente ou consulte:"
        (summary_lines b1 b2) <-> b1 && b2 = false).
Proof.
  intros G.
  destruct (job w BertNer (at_first_job w fs0)) as [r1 s1] eqn:J1.
  destruct (job w DistilBert (at_second_job w fs0)) as [r2 s2] eqn:J2.
  destruct (main_results_open w fs0 _ _ _ _ G J1 J2) as [_ MR].
  exists (success_of r1), (success_of r2), (after_try DistilBert r2 s2).
  split; [exact MR|].
  split. { now rewrite (main_open w fs0 _ _ _ _ G J1 J2). }
  split; [reflexivity|]. split; [reflexivity|].
  destruct (success_of r1), (success_of r2); simpl;
    (split; split; intros H; try reflexivity; try discriminate H;
     try (repeat (destruct H as [H|H]; [discriminate H|]); contradiction);
     tauto).
Qed.

(** A run in which the first job fails and the second succeeds. *)
Lemma summary_follows_results_witness :
  gate_open world_timeout = true /\
  exists b1 b2 sr,
    main_results world_timeout (init (Fs.Dir [])) =
      (Return [("bert_ner", b1); ("distilbert", b2)], sr) /\
    console (snd (main world_timeout (init (Fs.Dir [])))) =
      (console sr ++ summary_lines b1 b2)%list /\
    nth 3 (summary_lines b1 b2) "" = status_line BertNer b1 /\
    nth 4 (summary_lines b1 b2) "" = status_line DistilBert b2 /\
    (In "📋 Próximos passos:" (summary_lines b1 b2) <-> b1 && b2 = true) /\
    (In "💡 Dica: Tente executar novamente ou consulte:"
        (summary_lines b1 b2) <-> b1 && b2 = false).
Proof.
  split; [vm_compute; reflexivity|].
  apply (summary_follows_results world_timeout (Fs.Dir [])).
  vm_compute; reflexivity.
Defined.

(** Outside the two jobs [main] does not touch the filesystem: the gate
    leaves it as the run found it, an [except] block leaves it as the
    failed job left it (nothing is cleaned up), and so does the summary. *)
Theorem main_leaves_files_to_the_jobs (w : World) (fs0 : Fs.node) :
  gate_open w = true ->
  fs (at_first_job w fs0) = fs0 /\
  fs (at_second_job w fs0) = fs (snd (job w BertNer (at_first_job w fs0))) /\
  fs (snd (main w (init fs0)))
    = fs (snd (job w DistilBert (at_second_job w fs0))).
Proof.
  intros G.
  destruct (job w BertNer (at_first_job w fs0)) as [r1 s1] eqn:J1.
  destruct (job w DistilBert (at_second_job w fs0)) as [r2 s2] eqn:J2.
  destruct (main_results_open w fs0 _ _ _ _ G J1 J2) as [E2 _].
  split. { now rewrite (at_first_job_open w fs0 G). }
  split. { rewrite E2. apply after_try_fs. }
  now rewrite (main_open w fs0 _ _ _ _ G J1 J2).
Qed.

(** A run in which the first job fails after its tokenizer was saved. *)
Lemma main_leaves_files_to_the_jobs_witness :
  gate_open world_timeout = true /\
  Fs.exists_ (vocab_file BertNer)
    (fs (snd (main world_timeout (init (Fs.Dir []))))) = true /\
  fs (snd (main world_timeout (init (Fs.Dir []))))
    = fs (snd (job world_timeout DistilBert
                 (at_second_job world_timeout (Fs.Dir [])))).
Proof.
  split; [vm_compute; reflexivity|].
  split; [vm_compute; reflexivity|].
  destruct (main_leaves_files_to_the_jobs world_timeout (Fs.Dir []))
    as (_ & _ & H); [vm_compute; reflexivity | exact H].
Defined.

(** *** What the gate looks at *)

(** The gate depends on [torch], [transformers] and [optimum] only: two
    environments that agree on these three packages get the same verdict,
    the same report and the same state, whatever else imports or not
    ([onnxruntime], which the report tells to install, is not checked). *)
Theorem gate_checks_the_required_packages_only
    (w w' : World) (s : State) :
  (forall p, In p required -> importable w p = importable w' p) ->
  check_dependencies w s = check_dependencies w' s.
Proof.
  intros H.
  assert (collect_missing w required [] = collect_missing w' required [])
    as E.
  { rewrite !collect_missing_filter. simpl.
    rewrite !(H "torch"), !(H "transformers"), !(H "optimum");
      simpl; auto. }
  unfold check_dependencies. now rewrite E.
Qed.

(** Without [onnxruntime] the gate still opens. *)
Lemma gate_checks_the_required_packages_only_witness :
  importable world_no_onnxruntime "onnxruntime" = false /\
  importable world_lying "onnxruntime" = true /\
  check_dependencies world_no_onnxruntime (init (Fs.Dir []))
    = check_dependencies world_lying (init (Fs.Dir [])) /\
  gate_open world_no_onnxruntime = true.
Proof.
  split; [reflexivity | split; [reflexivity|]].
  split; [|vm_compute; reflexivity].
  apply (gate_checks_the_required_packages_only
           world_no_onnxruntime world_lying).
  intros p [<-|[<-|[<-|[]]]]; reflexivity.
Defined.

(** *** A model left by an earlier run *)

Lemma artifact_job_inert (w : World) (j : JobText) (s : State) :
  inert w ->
  Fs.exists_ (onnx_of j) (fs s) = true ->
  forall r s', artifact_job w j s = (r, s') ->
    r = Return true /\ fs s' = fs s.
Proof.
  intros (I1 & I2 & I3) X r s' H.
  pose proof (FsFacts.exists_below_is_dir _ _ _ X) as D.
  apply (FsFacts.mkdir_from_existing
           (Fs.str (Fs.Path (job_output_dir j)))) in D.
  unfold artifact_job, import_from, from_pretrained, save_pretrained in H.
  do 11
    (back H;
     repeat match goal with
       | E : import_from_ _ _ _ _ = _ |- _ =>
           rewrite I1 in E; first [discriminate E | injection E as <-]
       | E : from_pretrained_ _ _ _ _ _ = _ |- _ =>
           rewrite I2 in E; first [discriminate E | injection E as <-]
       | E : save_pretrained_ _ _ _ _ _ = _ |- _ =>
           rewrite I3 in E; first [discriminate E | injection E as <-]
       | E : Fs.mkdir_parents_exist_ok _ _ = _ |- _ =>
           unfold Fs.mkdir_parents_exist_ok in E; rewrite D in E;
           first [discriminate E | injection E as <-]
       end).
  back H.
  unfold onnx_of in X. rewrite X in H.
  unfold Fs.exists_ in X.
  destruct (Fs.resolve (Fs.div (Fs.Path (job_output_dir j)) "model.onnx")
              (fs s)) as [n|] eqn:R; [|discriminate X].
  apply bind_inv in H.
  destruct H as [(size & s1 & H8 & H) | (e & H8 & ->)];
    apply stat_inv in H8; simpl in H8; rewrite R in H8;
    destruct H8 as [-> H8]; [ injection H8 as -> | discriminate H8 ].
  do 4 back H.
  apply ret_inv in H. destruct H as [-> ->]. split; reflexivity.
Qed.

(** Verification cannot tell a fresh [model.onnx] from an old one: when
    [model.onnx] is already in the output directory and the libraries
    return without writing anything, the job returns [True] and leaves the
    filesystem as it found it. *)
Theorem stale_model_passes_verification
    (w : World) (a : Artifact) (s : State) :
  inert w ->
  Fs.exists_ (onnx_file a) (fs s) = true ->
  fst (job w a s) = Return true /\
  fs (snd (job w a s)) = fs s /\
  fst (try_block w a [] s) = Return [(key a, true)].
Proof.
  intros I X.
  destruct (job w a s) as [r s'] eqn:J.
  pose proof J as J'. rewrite job_shape in J'.
  destruct (artifact_job_inert w (text a) s I X r s' J') as [-> F].
  split; [reflexivity | split; [exact F|]].
  now rewrite (try_block_outcome w a [] s _ _ J).
Qed.

(** Libraries that write nothing, on a directory that holds an old
    model. *)
Lemma stale_model_passes_verification_witness :
  inert world_lying /\
  Fs.exists_ (onnx_file BertNer) fs_stale = true /\
  fst (job world_lying BertNer (init fs_stale)) = Return true /\
  fs (snd (job world_lying BertNer (init fs_stale))) = fs_stale.
Proof.
  assert (inert world_lying) as I by (repeat split).
  assert (Fs.exists_ (onnx_file BertNer) (fs (init fs_stale)) = true) as X
    by (vm_compute; reflexivity).
  split; [exact I | split; [exact X|]].
  destruct (stale_model_passes_verification world_lying BertNer
              (init fs_stale) I X) as (R & F & _).
  split; [exact R | exact F].
Defined.

(** *** The size line *)

Lemma round_half_even_by_one (n : N) : round_half_even n 1 = n.
Proof.
  unfold round_half_even. rewrite N.div_1_r, N.mod_1_r. reflexivity.
Qed.

Lemma round53_exact (n : N) : (n < 2 ^ 53)%N -> round53 n = n.
Proof.
  intros H. unfold round53.
  assert ((N.log2 n - 52 = 0)%N) as K.
  { apply N.sub_0_le.
    destruct (N.eq_dec n 0) as [->|NZ]; [simpl; lia|].
    assert ((N.log2 n < 53)%N) by (apply N.log2_lt_pow2; lia). lia. }
  rewrite K. change (2 ^ 0)%N with 1%N.
  rewrite round_half_even_by_one. lia.
Qed.

Lemma format_size_mb_tenths (n : N) :
  format_size_mb n =
  str_of_N (size_tenths n / 10) ++ "." ++ str_of_N (size_tenths n mod 10).
Proof. reflexivity. Qed.

Lemma round_half_even_mib (m : N) :
  (2 * m <= 2 * (round_half_even m 1048576 * 1048576) + 1048576)%N /\
  (2 * (round_half_even m 1048576 * 1048576) <= 2 * m + 1048576)%N.
Proof.
  unfold round_half_even. cbv zeta.
  pose proof (N.div_mod m 1048576 ltac:(discriminate)) as DM.
  pose proof (N.mod_lt m 1048576 ltac:(discriminate)) as ML.
  set (q := (m / 1048576)%N) in *. set (r := (m mod 1048576)%N) in *.
  destruct (2 * r <? 1048576)%N eqn:A.
  - apply N.ltb_lt in A. lia.
  - apply N.ltb_ge in A.
    destruct (1048576 <? 2 * r)%N eqn:B.
    + apply N.ltb_lt in B. lia.
    + apply N.ltb_ge in B. destruct (N.even q); lia.
Qed.

(** The number on the size line is the size in MiB rounded to the nearest
    tenth: for a file below 2^53 bytes (where the division is exact in a
    [float]) it is off by at most a twentieth of a MiB, 52 428.8 bytes. *)
Theorem size_line_is_the_nearest_tenth (n : N) :
  (n < 2 ^ 53)%N ->
  (2 * (10 * n) <= 2 * (size_tenths n * 1048576) + 1048576)%N /\
  (2 * (size_tenths n * 1048576) <= 2 * (10 * n) + 1048576)%N /\
  format_size_mb n =
    str_of_N (size_tenths n / 10) ++ "." ++ str_of_N (size_tenths n mod 10).
Proof.
  intros H.
  assert (size_tenths n = round_half_even (10 * n) 1048576) as T.
  { unfold size_tenths. now rewrite (round53_exact n H). }
  rewrite T at 1 2.
  destruct (round_half_even_mib (10 * n)) as [L U].
  split; [exact L | split; [exact U | apply format_size_mb_tenths]].
Qed.

(** A model of 438 000 000 bytes is shown as 417.7 MB. *)
Lemma size_line_is_the_nearest_tenth_witness :
  (438000000 < 2 ^ 53)%N /\
  size_tenths 438000000 = 4177%N /\
  (2 * (10 * 438000000)
   <= 2 * (size_tenths 438000000 * 1048576) + 1048576)%N.
Proof.
  assert (438000000 < 2 ^ 53)%N as H by (vm_compute; reflexivity).
  split; [exact H | split; [vm_compute; reflexivity|]].
  destruct (size_line_is_the_nearest_tenth 438000000 H) as (L & _ & _).
  exact L.
Defined.

(** Every file smaller than 52 429 bytes, the empty one included, is
    shown as 0.0 MB. *)
Theorem size_line_of_a_small_file (n : N) :
  (n < 52429)%N -> format_size_mb n = "0.0".
Proof.
  intros H.
  assert (size_tenths n = 0%N) as T.
  { unfold size_tenths. rewrite round53_exact by (change (2 ^ 53)%N with
      9007199254740992%N; lia).
    unfold round_half_even. change (1024 * 1024)%N with 1048576%N.
    rewrite (N.div_small (10 * n) 1048576) by lia.
    rewrite (N.mod_small (10 * n) 1048576) by lia.
    assert ((2 * (10 * n) <? 1048576)%N = true) as A
      by (apply N.ltb_lt; lia).
    now rewrite A. }
  rewrite format_size_mb_tenths, T. reflexivity.
Qed.

(** A file of 52 428 bytes. *)
Lemma size_line_of_a_small_file_witness :
  (52428 < 52429)%N /\ format_size_mb 52428 = "0.0" /\
  format_size_mb 52429 = "0.1".
Proof.
  assert (52428 < 52429)%N as H by (vm_compute; reflexivity).
  split; [exact H | split; [|vm_compute; reflexivity]].
  exact (size_line_of_a_small_file 52428 H).
Defined.

(** *** An error in the second job *)

(** In a run that passes the gate, when the DistilBERT job raises an
    error with text [msg], the second [try] block stores [False] under
    ["distilbert"] and leaves the flag of the first job as it was stored;
    the last line printed before the summary is the error line with
    [msg]; and the run ends with [sys.exit(1)], whatever the first job
    did. *)
Theorem second_job_error_keeps_the_first_outcome
    (w : World) (fs0 : Fs.node) (msg : string) :
  gate_open w = true ->
  fst (download_and_convert_distilbert_sentiment w (at_second_job w fs0))
    = Raise (Error msg) ->
  exists sr,
    main_results w (init fs0) =
      (Return [("bert_ner",
                success_of (fst (download_and_convert_bert_ner w
                                   (at_first_job w fs0))));
               ("distilbert", false)], sr) /\
    last (console sr) "" = line_error DistilBert msg /\
    fst (main w (init fs0)) = Raise (SystemExit 1).
Proof.
  intros G H2.
  destruct (job w BertNer (at_first_job w fs0)) as [r1 s1] eqn:J1.
  destruct (job w DistilBert (at_second_job w fs0)) as [r2 s2] eqn:J2.
  change (download_and_convert_distilbert_sentiment w)
    with (job w DistilBert) in H2.
  change (download_and_convert_bert_ner w) with (job w BertNer).
  rewrite J2 in H2. rewrite J1. simpl in H2. subst r2.
  destruct (main_results_open w fs0 _ _ _ _ G J1 J2) as [_ MR].
  exists (after_try DistilBert (Raise (Error msg)) s2).
  split; [exact MR|].
  split. { simpl. apply last_last. }
  rewrite (main_exit w fs0 _ _ _ MR). simpl.
  now rewrite andb_false_r.
Qed.

(** A run in which the first job succeeds and the export of the second
    model fails. *)
Lemma second_job_error_keeps_the_first_outcome_witness :
  gate_open world_export_fails = true /\
  fst (download_and_convert_distilbert_sentiment world_export_fails
         (at_second_job world_export_fails (Fs.Dir [])))
    = Raise (Error "export failed") /\
  fst (main_results world_export_fails (init (Fs.Dir [])))
    = Return [("bert_ner", true); ("distilbert", false)] /\
  fst (main world_export_fails (init (Fs.Dir []))) = Raise (SystemExit 1).
Proof.
  assert (gate_open world_export_fails = true) as G
    by (vm_compute; reflexivity).
  assert (fst (download_and_convert_distilbert_sentiment world_export_fails
                 (at_second_job world_export_fails (Fs.Dir [])))
          = Raise (Error "export failed")) as H
    by (vm_compute; reflexivity).
  split; [exact G | split; [exact H|]].
  destruct (second_job_error_keeps_the_first_outcome
              world_export_fails (Fs.Dir []) "export failed" G H)
    as (sr & MR & _ & E).
  split; [|exact E].
  rewrite MR. vm_compute. reflexivity.
Defined.

End DownloadFacts.

(** ** The example client *)

Module ClientFacts.

Import Py Client.
Local Open Scope Z_scope.

(** What one call builds. *)
Lemma send_request_spec (self : NexsMCPClient) (method : string)
    (params : option (dict json)) :
  exists request,
    _send_request self method params
      = Some (request, mkClient (server_path self) (request_id self + 1)) /\
    id_of request =
      (if is_notification method then None else Some (request_id self + 1)) /\
    dict_get "id" request =
      (if is_notification method then None
       else Some (JInt (request_id self + 1))).
Proof.
  unfold _send_request, is_notification. simpl.
  destruct (startswith method "notifications/"); simpl;
    eexists; split; try reflexivity; split; reflexivity.
Qed.

(** Every id built from a client is above the client's counter. *)
Lemma send_all_spec (calls : list (string * option (dict json))) :
  forall self,
  exists requests,
    send_all self calls
      = Some (requests,
              mkClient (server_path self)
                       (request_id self + Z.of_nat (length calls))) /\
    Forall2 (fun call request =>
               if is_notification (fst call)
               then dict_get "id" request = None
               else exists n, dict_get "id" request = Some (JInt n))
            calls requests /\
    Forall (fun n => request_id self < n) (ids_of requests) /\
    StronglySorted Z.lt (ids_of requests).
Proof.
  induction calls as [|[method params] rest IH]; intros self.
  - exists []. simpl. rewrite Z.add_0_r. destruct self.
    repeat split; constructor.
  - destruct (send_request_spec self method params) as (request & S1 & I1 & D1).
    destruct (IH (mkClient (server_path self) (request_id self + 1)))
      as (requests & S2 & F2 & B2 & O2).
    simpl in S2, B2.
    exists (request :: requests).
    cbn [send_all]. rewrite S1, S2.
    split.
    { do 3 f_equal. cbn [request_id server_path length].
      rewrite Nat2Z.inj_succ. lia. }
    split.
    { constructor; [|exact F2]. simpl. rewrite D1.
      destruct (is_notification method); eauto. }
    assert (Forall (fun n => request_id self < n) (ids_of requests)) as B2'.
    { eapply Forall_impl; [|exact B2]. simpl. intros; lia. }
    simpl. rewrite I1.
    destruct (is_notification method).
    + split; [exact B2' | exact O2].
    + split.
      * constructor; [lia | exact B2'].
      * constructor; [exact O2 | exact B2].
Qed.

(** C10.  Every [_send_request] returns and adds exactly one to the
    counter, also for a method that starts with ["notifications/"]; a
    request built for such a method has no ["id"] key and any other request
    has an ["id"], the counter after the call; over successive calls on one
    client the counter grows by the number of calls and the ids of the
    requests that have one increase strictly in build order; they need not
    be consecutive (a notification between two requests leaves a gap). *)
Theorem C10_request_ids
    (self : NexsMCPClient) (method : string) (params : option (dict json))
    (calls : list (string * option (dict json))) :
  (exists request self',
     _send_request self method params = Some (request, self') /\
     request_id self' = request_id self + 1 /\
     dict_get "id" request =
       (if startswith method "notifications/" then None
        else Some (JInt (request_id self')))) /\
  (exists requests self',
     send_all self calls = Some (requests, self') /\
     request_id self' = request_id self + Z.of_nat (length calls) /\
     Forall2 (fun call request =>
                if startswith (fst call) "notifications/"
                then dict_get "id" request = None
                else exists n, dict_get "id" request = Some (JInt n))
             calls requests /\
     StronglySorted Z.lt (ids_of requests)) /\
  (exists requests self',
     send_all (new "./bin/nexs-mcp")
       [("initialize", None); ("notifications/initialized", None);
        ("tools/list", None)] = Some (requests, self') /\
     ids_of requests = [1; 3]).
Proof.
  split; [|split].
  - destruct (send_request_spec self method params) as (request & S1 & _ & D1).
    exists request, (mkClient (server_path self) (request_id self + 1)).
    split; [exact S1 | split; [reflexivity | exact D1]].
  - destruct (send_all_spec calls self) as (requests & S & F & _ & O).
    do 2 eexists. split; [exact S|]. split; [reflexivity|].
    split; [exact F | exact O].
  - do 2 eexists. split; reflexivity.
Qed.

(** *** The shape of a request *)

Local Open Scope client_scope.

(** Every request carries ["jsonrpc": "2.0"], its method, and a
    ["params"] object that is never null ([None] becomes the empty
    object); its keys come in the order jsonrpc, id, method, params, the
    id being left out for a notification. *)
Theorem request_shape (self : NexsMCPClient) (method : string)
    (params : option (dict json)) :
  exists request self',
    _send_request self method params = Some (request, self') /\
    server_path self' = server_path self /\
    dict_get "jsonrpc" request = Some (JStr "2.0") /\
    dict_get "method" request = Some (JStr method) /\
    dict_get "params" request = Some (JDict (params_or_empty params)) /\
    keys request =
      (if startswith method "notifications/"
       then ["jsonrpc"; "method"; "params"]
       else ["jsonrpc"; "id"; "method"; "params"]).
Proof.
  unfold _send_request. simpl.
  destruct (startswith method "notifications/"); simpl;
    do 2 eexists; repeat split; reflexivity.
Qed.

(** [params or {}]: a call without parameters and a call with the empty
    dictionary build the same request; [list_tools] sends
    ["params": {}]. *)
Theorem no_params_is_empty_params (self : NexsMCPClient) (method : string) :
  _send_request self method None = _send_request self method (Some []) /\
  (exists request self',
     list_tools self = Some (request, self') /\
     dict_get "params" request = Some (JDict []) /\
     dict_get "id" request = Some (JInt (request_id self + 1))).
Proof.
  split; [reflexivity|].
  do 2 eexists. split; [reflexivity|]. split; reflexivity.
Qed.

(** A tool call is never a notification: it has the next id, the method
    ["tools/call"], and the tool's name and arguments under ["params"],
    also when the arguments are empty. *)
Theorem call_tool_request (self : NexsMCPClient) (tool_name : string)
    (arguments : dict json) :
  call_tool self tool_name arguments =
  Some ([("jsonrpc", JStr "2.0");
         ("id", JInt (request_id self + 1));
         ("method", JStr "tools/call");
         ("params", JDict [("name", JStr tool_name);
                           ("arguments", JDict arguments)])],
        mkClient (server_path self) (request_id self + 1)).
Proof. reflexivity. Qed.

(** *** [initialize] and the requests of [main] *)

(** [initialize] takes exactly one id.  Its first message is the
    [initialize] request with that id; its second is the
    [notifications/initialized] message, which has neither an id nor
    parameters and, being written out by hand, does not advance the
    counter as a notification built by [_send_request] would. *)
Theorem initialize_takes_one_id (self : NexsMCPClient) :
  exists init_request notification,
    initialize self =
      Some ([init_request; notification],
            mkClient (server_path self) (request_id self + 1)) /\
    dict_get "id" init_request = Some (JInt (request_id self + 1)) /\
    dict_get "method" init_request = Some (JStr "initialize") /\
    notification = [("jsonrpc", JStr "2.0");
                    ("method", JStr "notifications/initialized")] /\
    dict_get "id" notification = None /\
    dict_get "params" notification = None /\
    (exists built self',
       _send_request self "notifications/initialized" None
         = Some (built, self') /\
       request_id self' = request_id self + 1 /\
       built <> notification).
Proof.
  do 2 eexists. split; [reflexivity|].
  repeat (split; [reflexivity|]).
  do 2 eexists. split; [reflexivity|]. split; [reflexivity|].
  discriminate.
Qed.

Lemma all_requests_run (client : NexsMCPClient) :
  exists r1 r2 r3 r4 r5,
    initialize client =
      Some ([r1; r2], mkClient (server_path client) (request_id client + 1)) /\
    call_tool (mkClient (server_path client) (request_id client + 1))
      "create_element" persona =
      Some (r3, mkClient (server_path client) (request_id client + 1 + 1)) /\
    call_tool (mkClient (server_path client) (request_id client + 1 + 1))
      "list_elements" [] =
      Some (r4, mkClient (server_path client) (request_id client + 1 + 1 + 1)) /\
    list_tools (mkClient (server_path client) (request_id client + 1 + 1 + 1)) =
      Some (r5,
            mkClient (server_path client) (request_id client + 1 + 1 + 1 + 1)) /\
    all_requests client =
      Some ([r1; r2; r3; r4; r5],
            mkClient (server_path client) (request_id client + 1 + 1 + 1 + 1)) /\
    ids_of [r1; r2; r3; r4; r5] =
      [request_id client + 1; request_id client + 1 + 1;
       request_id client + 1 + 1 + 1; request_id client + 1 + 1 + 1 + 1] /\
    map (dict_get "method") [r1; r2; r3; r4; r5] =
      [Some (JStr "initialize"); Some (JStr "notifications/initialized");
       Some (JStr "tools/call"); Some (JStr "tools/call");
       Some (JStr "tools/list")] /\
    map (dict_get "id") [r1; r2; r3; r4; r5] =
      [Some (JInt (request_id client + 1)); None;
       Some (JInt (request_id client + 1 + 1));
       Some (JInt (request_id client + 1 + 1 + 1));
       Some (JInt (request_id client + 1 + 1 + 1 + 1))].
Proof.
  do 5 eexists. repeat split; reflexivity.
Qed.

(** The workflow of [main] builds five messages and uses four ids: from
    a client whose counter is [n] the requests carry [n+1], [n+2], [n+3],
    [n+4] in build order with no gap, the notification in second place
    carries none, and the counter ends at [n+4]. *)
Theorem workflow_ids_are_consecutive (client : NexsMCPClient) :
  exists requests client',
    all_requests client = Some (requests, client') /\
    length requests = 5%nat /\
    request_id client' = request_id client + 4 /\
    server_path client' = server_path client /\
    ids_of requests =
      [request_id client + 1; request_id client + 2;
       request_id client + 3; request_id client + 4] /\
    map (dict_get "method") requests =
      [Some (JStr "initialize"); Some (JStr "notifications/initialized");
       Some (JStr "tools/call"); Some (JStr "tools/call");
       Some (JStr "tools/list")] /\
    nth_error (map (dict_get "id") requests) 1 = Some None.
Proof.
  destruct (all_requests_run client)
    as (r1 & r2 & r3 & r4 & r5 & _ & _ & _ & _ & A & I & Me & Id).
  do 2 eexists. split; [exact A|].
  split; [reflexivity|].
  split; [simpl; lia|].
  split; [reflexivity|].
  split. { rewrite I. repeat (f_equal; try lia). }
  split; [exact Me|].
  rewrite Id. reflexivity.
Qed.

(** *** [main] *)

Lemma client_bind_print {B} (text : string) (k : unit -> M B) (out : list string) :
  bind (print text) k out = k tt (out ++ [text])%list.
Proof. reflexivity. Qed.

Lemma client_bind_ret {A B} (a : A) (k : A -> M B) (out : list string) :
  bind (ret a) k out = k a out.
Proof. reflexivity. Qed.

(** The first part of [main] always reaches the sending step, with the
    five messages of [all_requests]. *)
Lemma main_reaches_send (env : Env) (out : list string) :
  exists client,
    server_path client = "./bin/nexs-mcp" /\
    main env out =
    main_send env client requests_of_main
      (out ++ building)%list.
Proof.
  destruct (all_requests_run (new "./bin/nexs-mcp"))
    as (r1 & r2 & r3 & r4 & r5 & E1 & E2 & E3 & E4 & A & _).
  eexists. split; [|].
  2:{ unfold main. cbv zeta.
      do 2 rewrite client_bind_print. rewrite E1. unfold call at 1.
      rewrite client_bind_ret. cbv beta iota.
      rewrite client_bind_print. rewrite E2. unfold call at 1.
      rewrite client_bind_ret. cbv beta iota.
      rewrite client_bind_print. rewrite E3. unfold call at 1.
      rewrite client_bind_ret. cbv beta iota.
      rewrite client_bind_print. rewrite E4. unfold call at 1.
      rewrite client_bind_ret. cbv beta iota.
      unfold requests_of_main. rewrite A.
      rewrite <- !app_assoc. reflexivity. }
  reflexivity.
Qed.

Lemma show_lines_finishes (env : Env) (lines : list string) :
  forall out,
    forallb (fun line => negb (breaks env line)) lines = true ->
    show_lines env lines out =
    (inl tt, (out ++ concat (map (block env) lines))%list).
Proof.
  induction lines as [|line rest IH]; intros out H; simpl.
  - now rewrite app_nil_r.
  - simpl in H. apply andb_true_iff in H. destruct H as [B R].
    unfold bind, show_line, block, breaks in *.
    destruct (String.eqb line ""); simpl.
    + now rewrite (IH out R).
    + destruct (loads env line) as [response| |msg]; simpl in *;
        try discriminate B; unfold print, bind; simpl;
        rewrite IH by exact R; now rewrite <- !app_assoc.
Qed.

Lemma show_lines_breaks (env : Env) (lines : list string) :
  forall out,
    forallb (fun line => negb (breaks env line)) lines = false ->
    exists msg out',
      show_lines env lines out = (inr (Exception_ msg), out').
Proof.
  induction lines as [|line rest IH]; intros out H; simpl in H.
  - discriminate H.
  - simpl. unfold bind, show_line, breaks in *.
    destruct (String.eqb line ""); simpl in *.
    + exact (IH out H).
    + destruct (loads env line) as [response| |msg]; simpl in *;
        unfold print, bind; simpl; eauto.
Qed.

Lemma main_send_run (env : Env) (client : NexsMCPClient)
    (out : list string) :
  server_path client = "./bin/nexs-mcp" ->
  main_send env client requests_of_main out =
  match server env with
  | Completed _ stdout stderr =>
      match show_lines env (lines_of env stdout)
              (out ++ [line_sending; line_responses])%list with
      | (inl _, out') =>
          (inl tt,
           (out' ++ (if String.eqb stderr "" then []
                     else ["=== Server Errors ==="; stderr])
                 ++ [line_success])%list)
      | (inr TimeoutExpired, out') =>
          (inr (SystemExit 1), (out' ++ ["ERROR: Server timeout"])%list)
      | (inr FileNotFoundError, out') =>
          (inr (SystemExit 1),
           (out' ++ failure_lines "./bin/nexs-mcp" RunFileNotFoundError)%list)
      | (inr (Exception_ msg), out') =>
          (inr (SystemExit 1),
           (out' ++ failure_lines "./bin/nexs-mcp" (RunRaises msg))%list)
      | (inr (SystemExit c), out') => (inr (SystemExit c), out')
      end
  | o =>
      (inr (SystemExit 1),
       (out ++ [line_sending] ++ failure_lines "./bin/nexs-mcp" o)%list)
  end.
Proof.
  intros P. unfold main_send. rewrite client_bind_print. cbv zeta. rewrite P.
  unfold try_except, subprocess_run, server, input_of.
  unfold bind at 1.
  destruct (run env "./bin/nexs-mcp" (join nl (map (dumps env) requests_of_main)))
    as [rc stdout stderr| | |msg];
    try (unfold raise, bind, print, sys_exit, raise, failure_lines,
           line_sending; cbn [fst snd];
         rewrite <- ?app_assoc; reflexivity).
  unfold ret at 1. rewrite client_bind_print.
  unfold bind at 1. unfold lines_of.
  rewrite <- !app_assoc.
  destruct (show_lines env (split_lines (strip env stdout) "") _)
    as [[[]|[| |msg|c]] out'];
    try (unfold bind, print, sys_exit, raise, failure_lines;
         cbn [fst snd]; rewrite <- ?app_assoc; reflexivity).
  destruct (String.eqb stderr ""); unfold bind, ret, print; cbn [fst snd];
    rewrite <- ?app_assoc; try rewrite app_nil_r; reflexivity.
Qed.

Lemma preamble_eq : (building ++ [line_sending])%list = preamble.
Proof. reflexivity. Qed.

Lemma main_reports_success_whatever_the_server_returns_aux
    (env : Env) (returncode : Z) (stdout stderr : string) :
  server env = Completed returncode stdout stderr ->
  forallb (fun line => negb (breaks env line)) (lines_of env stdout) = true ->
  main env [] = (inl tt, (preamble ++ answers env stdout stderr)%list) /\
  exit_status (fst (main env [])) = 0.
Proof.
  intros S L.
  destruct (main_reaches_send env []) as (client & P & M).
  assert (main env [] = (inl tt, (preamble ++ answers env stdout stderr)%list))
    as R.
  { rewrite M, (main_send_run env client _ P), S.
    rewrite (show_lines_finishes env _ _ L).
    unfold answers. rewrite <- preamble_eq.
    cbn [app]. rewrite <- !app_assoc. reflexivity. }
  split; [exact R | now rewrite R].
Qed.

Lemma main_fails_aux (env : Env) :
  completed (server env) = false ->
  main env [] =
    (inr (SystemExit 1),
     (preamble ++ failure_lines "./bin/nexs-mcp" (server env))%list) /\
  exit_status (fst (main env [])) = 1.
Proof.
  intros C.
  destruct (main_reaches_send env []) as (client & P & M).
  assert (main env [] =
          (inr (SystemExit 1),
           (preamble ++ failure_lines "./bin/nexs-mcp" (server env))%list))
    as R.
  { rewrite M, (main_send_run env client _ P).
    rewrite <- preamble_eq.
    destruct (server env); try discriminate C;
      cbn [app]; rewrite <- ?app_assoc; reflexivity. }
  split; [exact R | now rewrite R].
Qed.

(** The example reports success whenever the server process finished and
    every answer line could be looked at, whatever the exit code of the
    server and whatever it wrote to its standard error: [main] returns
    (exit status 0) after printing, for each line of the stripped output
    in order, nothing for a blank line, the formatted answer and a blank
    line for a JSON line, and one "Invalid JSON" line otherwise (an
    invalid line does not stop the loop); then the standard error, if any;
    then the success line. *)
Theorem main_reports_success_whatever_the_server_returns
    (env : Env) (returncode : Z) (stdout stderr : string) :
  server env = Completed returncode stdout stderr ->
  forallb (fun line => negb (breaks env line)) (lines_of env stdout) = true ->
  main env [] = (inl tt, (preamble ++ answers env stdout stderr)%list) /\
  exit_status (fst (main env [])) = 0.
Proof.
  apply main_reports_success_whatever_the_server_returns_aux.
Qed.

(** A server that answers a JSON line, a blank line and a line that is
    not JSON, writes a warning and ends with exit code 3. *)
Lemma main_reports_success_whatever_the_server_returns_witness :
  server env_sample = Completed 3 ("{}" ++ nl ++ nl ++ "oops") "warning" /\
  main env_sample [] =
    (inl tt,
     (preamble
        ++ [line_responses; "{}"; ""; "Invalid JSON: oops";
            "=== Server Errors ==="; "warning"; line_success])%list) /\
  exit_status (fst (main env_sample [])) = 0.
Proof.
  assert (server env_sample
          = Completed 3 ("{}" ++ nl ++ nl ++ "oops") "warning") as S
    by (vm_compute; reflexivity).
  split; [exact S|].
  destruct (main_reports_success_whatever_the_server_returns
              env_sample 3 _ _ S) as [R E]; [vm_compute; reflexivity|].
  split; [|exact E].
  rewrite R. vm_compute. reflexivity.
Defined.

(** When [subprocess.run] raises, [main] prints the message of the
    matching [except] clause after the six lines printed so far, prints no
    success line, and ends with [sys.exit(1)]; the message for a missing
    binary names the path the client was created with. *)
Theorem main_fails_when_the_server_does_not_run (env : Env) :
  completed (server env) = false ->
  main env [] =
    (inr (SystemExit 1),
     (preamble ++ failure_lines "./bin/nexs-mcp" (server env))%list) /\
  exit_status (fst (main env [])) = 1 /\
  ~ In line_success (snd (main env [])).
Proof.
  intros C.
  destruct (main_fails_aux env C) as [R E].
  split; [exact R | split; [exact E|]].
  rewrite R. cbn [snd]. intros I. apply in_app_or in I.
  destruct I as [I|I].
  - vm_compute in I. repeat (destruct I as [I|I]; [discriminate I|]).
    exact I.
  - destruct (server env); simpl in I;
      repeat (destruct I as [I|I]; [discriminate I|]); exact I.
Qed.

(** No server binary. *)
Lemma main_fails_when_the_server_does_not_run_witness :
  completed (server env_no_server) = false /\
  main env_no_server [] =
    (inr (SystemExit 1),
     (preamble ++ ["ERROR: Server not found at ./bin/nexs-mcp";
                   "Build the server first: make build"])%list).
Proof.
  assert (completed (server env_no_server) = false) as C
    by (vm_compute; reflexivity).
  split; [exact C|].
  destruct (main_fails_when_the_server_does_not_run env_no_server C)
    as (R & _).
  rewrite R. vm_compute. reflexivity.
Defined.

(** The exit status of the example is 0 exactly when [subprocess.run]
    returned and [json.loads] raised nothing but [JSONDecodeError] on the
    answer lines, and 1 otherwise; the exit code of the server and its
    standard error play no part. *)
Theorem main_exit_status (env : Env) :
  exit_status (fst (main env [])) =
  (if completed (server env) && loop_finishes env then 0 else 1).
Proof.
  destruct (main_reaches_send env []) as (client & P & M).
  unfold loop_finishes.
  destruct (server env) as [rc stdout stderr| | |msg] eqn:S.
  - cbn [completed stdout_of andb].
    destruct (forallb (fun line => negb (breaks env line))
                (lines_of env stdout)) eqn:L.
    + now destruct (main_reports_success_whatever_the_server_returns_aux
                      env rc stdout stderr S L) as [_ E].
    + rewrite M, (main_send_run env client _ P), S.
      match goal with
      | |- context [show_lines env ?l ?o] =>
          destruct (show_lines_breaks env l o L) as (msg & out' & B);
          rewrite B
      end.
      reflexivity.
  - now destruct (main_fails_aux env) as [_ E]; [rewrite S|].
  - now destruct (main_fails_aux env) as [_ E]; [rewrite S|].
  - now destruct (main_fails_aux env) as [_ E]; [rewrite S|].
Qed.

End ClientFacts.
